(** * http2-auto-window-size: the adaptive window controller

    A shallow embedding of [src/library/index.ts] and the properties of its
    control loop.

    Modelling choices.
    - A JavaScript [number] that can hold a fraction (window sizes, ping
      durations, the configuration factors) is an exact rational [Q] in
      the world the callbacks run in: rounding of IEEE doubles, [NaN] and
      signed zeros are not modelled there.  [Date.now()] readings and the
      byte counter are integers in the source and are [Z] here.  What a
      tick computes and decides is embedded a second time over any
      [Arithmetic], with the exact rationals and the binary64 floats of
      the kernel as instances; the tick of the world is the exact
      instance.
    - The closure variables of [setupAutoWindowSize] and [setupSessionPing]
      are fields of one [World] record, next to the part of the Node
      runtime the code talks to: the table of active intervals, the clock,
      and the [Http2Session].
    - Every call the code makes on a collaborator it does not own
      ([session.setLocalWindowSize], [session.ping], the two observer
      callbacks of the options) is appended to [trace], in program order,
      whether the call returns or throws.
    - Code runs in a small state-and-exception monad [JS]; the callbacks the
      code registers are run by [step], one event of the event loop at a
      time.  An exception a callback lets escape is the event loop's to
      deal with: the next event finds the world as the callback left it.
      A process that ends on an uncaught exception runs a prefix of such
      a run.
    - Of the collaborators it is assumed that an interval fires only
      while active, that a ping completes only while outstanding, and
      that the session behaves as Node's [Http2Session] does: ['close']
      is emitted once, on a session that is already destroyed; once
      destroyed, the session answers outstanding pings with an error
      only and reports an empty [state].  The clock, and the window size
      a live session reports, are arbitrary.
    - [session.setLocalWindowSize] throws as Node's does: on a destroyed
      session, and for a size that is not an integer from 0 to 2^31 - 1.
      [session.ping] is only called on a live session, where it returns.
      The two observers are the caller's own code and are taken to
      return. *)

From Stdlib Require Import ZArith QArith Qround Lia List Bool.
From Stdlib Require Import Strings.Byte.
From Stdlib Require Import Floats.
From stdpp Require Import base option gmap.
Import ListNotations.

Local Open Scope Z_scope.

(** ** JavaScript numbers *)

Definition Qlt_bool (x y : Q) : bool := negb (Qle_bool y x).

(** [Math.ceil]: the result is an integer-valued number. *)
Definition Math_ceil (x : Q) : Q := inject_Z (Qceiling x).

(** [Math.max(a, b)] and [Math.min(a, b)] on two numbers. *)
Definition Math_max (a b : Q) : Q := if Qlt_bool a b then b else a.
Definition Math_min (a b : Q) : Q := if Qlt_bool b a then b else a.

(** [x ?? Infinity] followed by [Math.min(_, d)] needs the one infinite
    value the code ever produces. *)
Inductive Extended : Type :=
| Finite (q : Q)
| Infinity.

Definition nullish_Infinity (x : option Q) : Extended :=
  match x with
  | Some q => Finite q
  | None => Infinity
  end.

(** [Math.min(e, d)] with [d] finite: the result is finite. *)
Definition Math_min_ext (e : Extended) (d : Q) : Q :=
  match e with
  | Finite q => Math_min q d
  | Infinity => d
  end.

(** ** Constants and options *)

Definition BANDWIDTH_CALCULATION_INTERVAL_DEFAULT : Q := 200.
Definition MIN_WINDOW_SIZE_DEFAULT : Q := 64 * 1024.
Definition WINDOW_SIZE_FACTOR_DEFAULT : Q := 2.
Definition WINDOW_SIZE_REDUCING_RTT_THRESHOLD_FACTOR_DEFAULT : Q := 5.
Definition INITIAL_PING_DURATION_REFERENCE_DEFAULT : Q := 100.
Definition PING_INTERVAL_FACTOR_DEFAULT : Q := 50.

(** [AutoWindowSizeOptions]: every property is optional.  The two observer
    callbacks are opaque to the controller: only whether one was supplied
    matters, and each call is recorded in the trace. *)
Record AutoWindowSizeOptions : Type := mkOptions {
  bandwidthCalculationInterval : option Q;
  initialWindowSize : option Q;
  minWindowSize : option Q;
  windowSizeFactor : option Q;
  windowSizeReducingRTTThresholdFactor : option Q;
  initialPingDurationReference : option Q;
  pingIntervalFactor : option Q;
  onSetLocalWindowSize : bool;
  onPingCallback : bool
}.

(** [{}], the default value of the options parameter. *)
Definition no_options : AutoWindowSizeOptions :=
  mkOptions None None None None None None None false false.

(** A destructuring default [{x = d}]: [d] replaces [undefined]. *)
Definition or_default (d : Q) (x : option Q) : Q :=
  match x with
  | Some q => q
  | None => d
  end.

(** ** The world the code runs in *)

Definition Timeout := nat.

(** What an active interval calls when it fires. *)
Inductive TimerCallback : Type :=
| BandwidthCalculation   (* the arrow function of index.ts:100 *)
| Ping.                  (* [() => ping()] of index.ts:173 *)

Record Interval : Type := mkInterval {
  interval_callback : TimerCallback;
  interval_delay : Q
}.

(** Calls on collaborators, as they appear to an observer, whether they
    return or throw. *)
Inductive Effect : Type :=
| SetLocalWindowSize (windowSize : Q)     (* session.setLocalWindowSize(w) *)
| SessionPing                             (* session.ping(cb) *)
| OnSetLocalWindowSize (windowSize : Q)   (* options.onSetLocalWindowSize(w) *)
| OnPingCallback (duration : Q).          (* options.onPingCallback(d) *)

Record World : Type := mkWorld {
  (* Node runtime *)
  timers : gmap nat Interval;           (* the active intervals *)
  nextTimeout : Timeout;                (* what setInterval returns next *)
  Date_now : Z;                         (* what [Date.now()] returns *)
  (* the Http2Session *)
  session_destroyed : bool;             (* session.destroyed *)
  session_closed : bool;                (* 'close' has been emitted *)
  session_effectiveLocalWindowSize : option Q;
                                        (* session.state, same name *)
  session_outstandingPings : nat;       (* pings sent, callback not yet run *)
  (* closure of setupAutoWindowSize *)
  recentRTT : option Q;
  minRTT : option Q;
  receivedSinceLastBandwidthCalculation : Z;
  bandwidthCalculatedAt : Z;
  autoWindowSize_timer : option Timeout;  (* [const timer], index.ts:100 *)
  (* closure of setupSessionPing *)
  sessionPing_timer : option Timeout;     (* [let timer], index.ts:163 *)
  (* observable calls so far, oldest first *)
  trace : list Effect
}.

Definition with_timers (t : gmap nat Interval) (w : World) : World :=
  mkWorld t (nextTimeout w) (Date_now w) (session_destroyed w)
    (session_closed w) (session_effectiveLocalWindowSize w)
    (session_outstandingPings w) (recentRTT w) (minRTT w)
    (receivedSinceLastBandwidthCalculation w) (bandwidthCalculatedAt w)
    (autoWindowSize_timer w) (sessionPing_timer w) (trace w).

Definition with_nextTimeout (n : Timeout) (w : World) : World :=
  mkWorld (timers w) n (Date_now w) (session_destroyed w)
    (session_closed w) (session_effectiveLocalWindowSize w)
    (session_outstandingPings w) (recentRTT w) (minRTT w)
    (receivedSinceLastBandwidthCalculation w) (bandwidthCalculatedAt w)
    (autoWindowSize_timer w) (sessionPing_timer w) (trace w).

Definition with_Date_now (t : Z) (w : World) : World :=
  mkWorld (timers w) (nextTimeout w) t (session_destroyed w)
    (session_closed w) (session_effectiveLocalWindowSize w)
    (session_outstandingPings w) (recentRTT w) (minRTT w)
    (receivedSinceLastBandwidthCalculation w) (bandwidthCalculatedAt w)
    (autoWindowSize_timer w) (sessionPing_timer w) (trace w).

Definition with_session_destroyed (b : bool) (w : World) : World :=
  mkWorld (timers w) (nextTimeout w) (Date_now w) b
    (session_closed w) (session_effectiveLocalWindowSize w)
    (session_outstandingPings w) (recentRTT w) (minRTT w)
    (receivedSinceLastBandwidthCalculation w) (bandwidthCalculatedAt w)
    (autoWindowSize_timer w) (sessionPing_timer w) (trace w).

Definition with_session_closed (b : bool) (w : World) : World :=
  mkWorld (timers w) (nextTimeout w) (Date_now w) (session_destroyed w)
    b (session_effectiveLocalWindowSize w)
    (session_outstandingPings w) (recentRTT w) (minRTT w)
    (receivedSinceLastBandwidthCalculation w) (bandwidthCalculatedAt w)
    (autoWindowSize_timer w) (sessionPing_timer w) (trace w).

Definition with_session_effectiveLocalWindowSize (o : option Q) (w : World)
  : World :=
  mkWorld (timers w) (nextTimeout w) (Date_now w) (session_destroyed w)
    (session_closed w) o
    (session_outstandingPings w) (recentRTT w) (minRTT w)
    (receivedSinceLastBandwidthCalculation w) (bandwidthCalculatedAt w)
    (autoWindowSize_timer w) (sessionPing_timer w) (trace w).

Definition with_session_outstandingPings (n : nat) (w : World) : World :=
  mkWorld (timers w) (nextTimeout w) (Date_now w) (session_destroyed w)
    (session_closed w) (session_effectiveLocalWindowSize w)
    n (recentRTT w) (minRTT w)
    (receivedSinceLastBandwidthCalculation w) (bandwidthCalculatedAt w)
    (autoWindowSize_timer w) (sessionPing_timer w) (trace w).

Definition with_recentRTT (o : option Q) (w : World) : World :=
  mkWorld (timers w) (nextTimeout w) (Date_now w) (session_destroyed w)
    (session_closed w) (session_effectiveLocalWindowSize w)
    (session_outstandingPings w) o (minRTT w)
    (receivedSinceLastBandwidthCalculation w) (bandwidthCalculatedAt w)
    (autoWindowSize_timer w) (sessionPing_timer w) (trace w).

Definition with_minRTT (o : option Q) (w : World) : World :=
  mkWorld (timers w) (nextTimeout w) (Date_now w) (session_destroyed w)
    (session_closed w) (session_effectiveLocalWindowSize w)
    (session_outstandingPings w) (recentRTT w) o
    (receivedSinceLastBandwidthCalculation w) (bandwidthCalculatedAt w)
    (autoWindowSize_timer w) (sessionPing_timer w) (trace w).

Definition with_receivedSinceLastBandwidthCalculation (n : Z) (w : World)
  : World :=
  mkWorld (timers w) (nextTimeout w) (Date_now w) (session_destroyed w)
    (session_closed w) (session_effectiveLocalWindowSize w)
    (session_outstandingPings w) (recentRTT w) (minRTT w)
    n (bandwidthCalculatedAt w)
    (autoWindowSize_timer w) (sessionPing_timer w) (trace w).

Definition with_bandwidthCalculatedAt (t : Z) (w : World) : World :=
  mkWorld (timers w) (nextTimeout w) (Date_now w) (session_destroyed w)
    (session_closed w) (session_effectiveLocalWindowSize w)
    (session_outstandingPings w) (recentRTT w) (minRTT w)
    (receivedSinceLastBandwidthCalculation w) t
    (autoWindowSize_timer w) (sessionPing_timer w) (trace w).

Definition with_autoWindowSize_timer (o : option Timeout) (w : World)
  : World :=
  mkWorld (timers w) (nextTimeout w) (Date_now w) (session_destroyed w)
    (session_closed w) (session_effectiveLocalWindowSize w)
    (session_outstandingPings w) (recentRTT w) (minRTT w)
    (receivedSinceLastBandwidthCalculation w) (bandwidthCalculatedAt w)
    o (sessionPing_timer w) (trace w).

Definition with_sessionPing_timer (o : option Timeout) (w : World) : World :=
  mkWorld (timers w) (nextTimeout w) (Date_now w) (session_destroyed w)
    (session_closed w) (session_effectiveLocalWindowSize w)
    (session_outstandingPings w) (recentRTT w) (minRTT w)
    (receivedSinceLastBandwidthCalculation w) (bandwidthCalculatedAt w)
    (autoWindowSize_timer w) o (trace w).

Definition with_trace (t : list Effect) (w : World) : World :=
  mkWorld (timers w) (nextTimeout w) (Date_now w) (session_destroyed w)
    (session_closed w) (session_effectiveLocalWindowSize w)
    (session_outstandingPings w) (recentRTT w) (minRTT w)
    (receivedSinceLastBandwidthCalculation w) (bandwidthCalculatedAt w)
    (autoWindowSize_timer w) (sessionPing_timer w) t.

(** ** The monad of JavaScript code *)

Inductive Exception : Type :=
| AssertionError                (* assert, index.ts:78 *)
| ERR_HTTP2_INVALID_SESSION     (* Http2Session, on a destroyed session *)
| ERR_OUT_OF_RANGE.             (* validateInt32 of Http2Session *)

Inductive Completion (A : Type) : Type :=
| Normal (a : A)
| Throw (e : Exception).
Arguments Normal {A} a.
Arguments Throw {A} e.

Definition JS (A : Type) : Type := World -> Completion A * World.

Definition ret {A : Type} (a : A) : JS A := fun w => (Normal a, w).

Definition bind {A B : Type} (m : JS A) (k : A -> JS B) : JS B :=
  fun w =>
    match m w with
    | (Normal a, w') => k a w'
    | (Throw e, w') => (Throw e, w')
    end.

Definition throw {A : Type} (e : Exception) : JS A := fun w => (Throw e, w).

Definition read {A : Type} (f : World -> A) : JS A :=
  fun w => (Normal (f w), w).

Definition write (f : World -> World) : JS unit := fun w => (Normal tt, f w).

Declare Scope js_scope.
Delimit Scope js_scope with js.
Notation "x <- c1 ;; c2" := (bind c1 (fun x => c2))
  (at level 100, c1 at next level, c2 at level 200, right associativity)
  : js_scope.
Notation "c1 ;; c2" := (bind c1 (fun _ => c2))
  (at level 100, c2 at level 200, right associativity) : js_scope.

(** The world a piece of code leaves behind, whatever its completion. *)
Definition exec {A : Type} (m : JS A) (w : World) : World := snd (m w).

(** ** Runtime and session primitives *)

Local Open Scope js_scope.

(** [assert(cond)] of Node's [assert] module. *)
Definition assert (cond : bool) : JS unit :=
  if cond then ret tt else throw AssertionError.

(** [setInterval(cb, delay)]: a fresh [Timeout], active from now on. *)
Definition setInterval (cb : TimerCallback) (d : Q) : JS Timeout :=
  h <- read nextTimeout ;;
  write (fun w => with_timers (<[h := mkInterval cb d]> (timers w)) w) ;;
  write (with_nextTimeout (S h)) ;;
  ret h.

(** [clearInterval(t)]: nothing happens for [undefined] or for a [Timeout]
    that is no longer active. *)
Definition clearInterval (t : option Timeout) : JS unit :=
  match t with
  | Some h => write (fun w => with_timers (delete h (timers w)) w)
  | None => ret tt
  end.

Definition emit (e : Effect) : JS unit :=
  write (fun w => with_trace (trace w ++ [e]) w).

(** What Node's [validateInt32(windowSize, 'windowSize', 0)] accepts: an
    integer from 0 to 2^31 - 1. *)
Definition valid_windowSize (windowSize : Q) : bool :=
  Qeq_bool windowSize (inject_Z (Qfloor windowSize))
  && Qle_bool 0 windowSize
  && Qle_bool windowSize 2147483647.

(** [session.setLocalWindowSize(windowSize)] as Node's [Http2Session]
    has it: it throws on a destroyed session, then for a size
    [validateInt32] refuses, and only then sets the window. *)
Definition session_setLocalWindowSize (windowSize : Q) : JS unit :=
  emit (SetLocalWindowSize windowSize) ;;
  destroyed <- read session_destroyed ;;
  if (destroyed : bool) then throw ERR_HTTP2_INVALID_SESSION
  else if valid_windowSize windowSize then ret tt
  else throw ERR_OUT_OF_RANGE.

(** [session.ping(cb)]: the ping is outstanding until its callback runs. *)
Definition session_ping : JS unit :=
  emit SessionPing ;;
  write (fun w =>
    with_session_outstandingPings (S (session_outstandingPings w)) w).

(** [f?.(x)] for an observer of the options. *)
Definition call_optional (supplied : bool) (e : Effect) : JS unit :=
  if supplied then emit e else ret tt.

(** ** setupSessionPing (index.ts:157-191) *)

(** What the callback of [session.ping] receives: an error, or a duration. *)
Inductive PingResult : Type :=
| PingError
| PingDuration (duration : Q).

(** [update(duration)], index.ts:170-174. *)
Definition update (pingIntervalFactor : Q) (duration : Q) : JS unit :=
  timer <- read sessionPing_timer ;;
  clearInterval timer ;;
  timer' <- setInterval Ping (duration * pingIntervalFactor)%Q ;;
  write (with_sessionPing_timer (Some timer')).

(** [ping()], index.ts:176-190, up to the moment [session.ping] returns. *)
Definition ping : JS unit :=
  destroyed <- read session_destroyed ;;
  if (destroyed : bool) then
    timer <- read sessionPing_timer ;;
    clearInterval timer
  else
    session_ping.

(** The arrow function handed to [session.ping], index.ts:182-189. *)
Definition ping_callback (pingIntervalFactor : Q) (callback : Q -> JS unit)
    (result : PingResult) : JS unit :=
  match result with
  | PingError => ret tt
  | PingDuration duration =>
      callback duration ;;
      update pingIntervalFactor duration
  end.

(** The body of [setupSessionPing].  The ['close'] listener it registers
    and the [callback] it passes on are run by [handler] below. *)
Definition setupSessionPing (initialDurationReference pingIntervalFactor : Q)
  : JS unit :=
  write (with_sessionPing_timer None) ;;
  ping ;;
  update pingIntervalFactor initialDurationReference.

(** The ['close'] listener of index.ts:165. *)
Definition sessionPing_onClose : JS unit :=
  timer <- read sessionPing_timer ;;
  clearInterval timer.

(** ** setupAutoWindowSize (index.ts:63-155) *)

(** The [callback] given to [setupSessionPing], index.ts:89-94.
    [recentRTT] has just been assigned [duration] when [minRTT] is
    computed. *)
Definition onDuration (o : AutoWindowSizeOptions) (duration : Q) : JS unit :=
  write (with_recentRTT (Some duration)) ;;
  minRTT <- read minRTT ;;
  write (with_minRTT
           (Some (Math_min_ext (nullish_Infinity minRTT) duration))) ;;
  call_optional (onPingCallback o) (OnPingCallback duration).

(** The window size of index.ts:119-130, from what the interval callback
    has read: [received], [duration] and [minRTT]. *)
Definition windowSize_of (windowSizeFactor : Q) (received duration : Z)
    (minRTT : Q) : Q :=
  let bandwidth := (inject_Z received / inject_Z duration)%Q in
  let refWindowSize := (bandwidth * minRTT)%Q in
  Math_max (Math_ceil (refWindowSize * windowSizeFactor)%Q)
           MIN_WINDOW_SIZE_DEFAULT.

(** The condition of index.ts:132-136. *)
Definition shouldSet (windowSizeReducingRTTThresholdFactor : Q)
    (windowSize effectiveLocalWindowSize recentRTT minRTT : Q) : bool :=
  Qlt_bool effectiveLocalWindowSize windowSize
  || (Qlt_bool windowSize effectiveLocalWindowSize
      && Qlt_bool (minRTT * windowSizeReducingRTTThresholdFactor)%Q recentRTT).

(** The interval callback of index.ts:100-140: one tick of the
    controller. *)
Definition bandwidthCalculation (o : AutoWindowSizeOptions) : JS unit :=
  let windowSizeFactor :=
    or_default WINDOW_SIZE_FACTOR_DEFAULT (windowSizeFactor o) in
  let windowSizeReducingRTTThresholdFactor :=
    or_default WINDOW_SIZE_REDUCING_RTT_THRESHOLD_FACTOR_DEFAULT
               (windowSizeReducingRTTThresholdFactor o) in
  now <- read Date_now ;;
  calculatedAt <- read bandwidthCalculatedAt ;;
  let duration := now - calculatedAt in
  received <- read receivedSinceLastBandwidthCalculation ;;
  write (with_receivedSinceLastBandwidthCalculation 0) ;;
  write (with_bandwidthCalculatedAt now) ;;
  if duration <=? 0 then ret tt else
  effectiveLocalWindowSize <- read session_effectiveLocalWindowSize ;;
  match effectiveLocalWindowSize with
  | None => ret tt
  | Some effectiveLocalWindowSize =>
      minRTT <- read minRTT ;;
      recentRTT <- read recentRTT ;;
      match minRTT, recentRTT with
      | Some minRTT, Some recentRTT =>
          let windowSize :=
            windowSize_of windowSizeFactor received duration minRTT in
          if shouldSet windowSizeReducingRTTThresholdFactor
               windowSize effectiveLocalWindowSize recentRTT minRTT
          then
            session_setLocalWindowSize windowSize ;;
            call_optional (onSetLocalWindowSize o)
                          (OnSetLocalWindowSize windowSize)
          else ret tt
      | _, _ => ret tt
      end
  end.

(** The wrapper installed over [stream.push], index.ts:146-152.  A
    [Buffer], even an empty one, is truthy; [null] is not. *)
Definition stream_push (data : option (list byte)) : JS unit :=
  match data with
  | Some buffer =>
      received <- read receivedSinceLastBandwidthCalculation ;;
      write (with_receivedSinceLastBandwidthCalculation
               (received + Z.of_nat (length buffer)))
  | None => ret tt
  end.

(** The ['close'] listener of index.ts:154. *)
Definition autoWindowSize_onClose : JS unit :=
  timer <- read autoWindowSize_timer ;;
  clearInterval timer.

(** The body of [setupAutoWindowSize].  The listeners it registers on
    the session are run by [handler] below. *)
Definition setupAutoWindowSize (o : AutoWindowSizeOptions) : JS unit :=
  let bandwidthCalculationInterval :=
    or_default BANDWIDTH_CALCULATION_INTERVAL_DEFAULT
               (bandwidthCalculationInterval o) in
  let minWindowSize := or_default MIN_WINDOW_SIZE_DEFAULT (minWindowSize o) in
  let initialPingDurationReference :=
    or_default INITIAL_PING_DURATION_REFERENCE_DEFAULT
               (initialPingDurationReference o) in
  let pingIntervalFactor :=
    or_default PING_INTERVAL_FACTOR_DEFAULT (pingIntervalFactor o) in
  match initialWindowSize o with
  | Some initialWindowSize =>
      assert (Qle_bool minWindowSize initialWindowSize) ;;
      session_setLocalWindowSize initialWindowSize
  | None => ret tt
  end ;;
  write (with_recentRTT None) ;;
  write (with_minRTT None) ;;
  setupSessionPing initialPingDurationReference pingIntervalFactor ;;
  write (with_receivedSinceLastBandwidthCalculation 0) ;;
  now <- read Date_now ;;
  write (with_bandwidthCalculatedAt now) ;;
  timer <- setInterval BandwidthCalculation bandwidthCalculationInterval ;;
  write (with_autoWindowSize_timer (Some timer)).

(** ** What a tick computes, in any arithmetic (index.ts:101-139) *)

(** The operations on numbers a tick uses. *)
Class Arithmetic (num : Type) : Type := mkArithmetic {
  of_integer : Z -> num;        (* an integer as a number *)
  divide : num -> num -> num;   (* [a / b] *)
  times : num -> num -> num;    (* [a * b] *)
  ceiling : num -> num;         (* [Math.ceil(a)] *)
  maximum : num -> num -> num;  (* [Math.max(a, b)] *)
  less : num -> num -> bool;    (* [a < b]; [a > b] is [less b a] *)
  int32 : num -> bool           (* an integer from 0 to 2^31 - 1 *)
}.

(** Exact rationals: the numbers of the world the callbacks run in. *)
#[export] Instance exact : Arithmetic Q :=
  mkArithmetic Q inject_Z Qdiv Qmult Math_ceil Math_max Qlt_bool
    valid_windowSize.

(** 2^52: from here on every binary64 number is an integer. *)
Definition two52 : float := 4503599627370496%float.

(** [Math.ceil] on a binary64 number.  Below 2^52 in magnitude, adding and
    taking away 2^52 rounds to the nearest integer, which is the ceiling
    or one below it; anything else, [NaN] and the infinities included, is
    its own ceiling.  The sign of a zero result is not kept. *)
Definition Math_ceil_binary64 (x : float) : float :=
  if PrimFloat.ltb (PrimFloat.abs x) two52 then
    let t := if PrimFloat.ltb x 0%float
             then PrimFloat.add (PrimFloat.sub x two52) two52
             else PrimFloat.sub (PrimFloat.add x two52) two52 in
    if PrimFloat.ltb t x then PrimFloat.add t 1%float else t
  else x.

(** [Math.max(a, b)] on binary64 numbers: [NaN] if either is. *)
Definition Math_max_binary64 (a b : float) : float :=
  if PrimFloat.ltb a b then b
  else if PrimFloat.ltb b a then a
  else if PrimFloat.eqb a b then a
  else PrimFloat.nan.

(** An integer as a binary64 number, rounded to nearest beyond 2^53. *)
Definition of_integer_binary64 (z : Z) : float :=
  if z <? 0 then PrimFloat.opp (PrimFloat.of_uint63 (Uint63.of_Z (- z)))
  else PrimFloat.of_uint63 (Uint63.of_Z z).

(** What [validateInt32(x, 'windowSize', 0)] accepts of binary64
    numbers: [NaN], the infinities and fractions are refused. *)
Definition valid_windowSize_binary64 (x : float) : bool :=
  PrimFloat.eqb (Math_ceil_binary64 x) x
  && PrimFloat.leb 0%float x
  && PrimFloat.leb x 2147483647%float.

(** IEEE 754 binary64, the numbers of JavaScript: every operation rounds
    to nearest, and a comparison with [NaN] is false. *)
#[export] Instance binary64 : Arithmetic float :=
  mkArithmetic float of_integer_binary64 PrimFloat.div PrimFloat.mul
    Math_ceil_binary64 Math_max_binary64 PrimFloat.ltb
    valid_windowSize_binary64.

(** The calls a tick can make. *)
Inductive Call (num : Type) : Type :=
| SetWindow (windowSize : num)       (* session.setLocalWindowSize(w) *)
| ReportWindow (windowSize : num).   (* onSetLocalWindowSize?.(w) *)
Arguments SetWindow {num} windowSize.
Arguments ReportWindow {num} windowSize.

Definition effect_of_call (c : Call Q) : Effect :=
  match c with
  | SetWindow v => SetLocalWindowSize v
  | ReportWindow v => OnSetLocalWindowSize v
  end.

Section Tick.

Context {num : Type} {A : Arithmetic num}.

(** [MIN_WINDOW_SIZE_DEFAULT = 64 * 1024], index.ts:6. *)
Definition min_window_size_default_in : num :=
  times (of_integer 64) (of_integer 1024).

(** The window size of index.ts:119-130. *)
Definition windowSize_in (windowSizeFactor : num) (received duration : Z)
    (minRTT : num) : num :=
  let bandwidth := divide (of_integer received) (of_integer duration) in
  let refWindowSize := times bandwidth minRTT in
  maximum (ceiling (times refWindowSize windowSizeFactor))
          min_window_size_default_in.

(** The condition of index.ts:132-136. *)
Definition shouldSet_in (windowSizeReducingRTTThresholdFactor : num)
    (windowSize effectiveLocalWindowSize recentRTT minRTT : num) : bool :=
  less effectiveLocalWindowSize windowSize
  || (less windowSize effectiveLocalWindowSize
      && less (times minRTT windowSizeReducingRTTThresholdFactor) recentRTT).

(** Whether the session takes [setLocalWindowSize(windowSize)], and
    the call returns. *)
Definition accepted_in (destroyed : bool) (windowSize : num) : bool :=
  negb destroyed && int32 windowSize.

(** The calls of one tick, index.ts:101-139, from what it reads: whether
    the observer is there, the two factors, the clock, the timestamp and
    the counter, whether the session is destroyed, the window size it
    reports and the two samples.  The observer is called once
    [setLocalWindowSize] has returned. *)
Definition tick_calls (onSetLocalWindowSize : bool)
    (windowSizeFactor windowSizeReducingRTTThresholdFactor : num)
    (now bandwidthCalculatedAt received : Z) (destroyed : bool)
    (effectiveLocalWindowSize minRTT recentRTT : option num)
  : list (Call num) :=
  let duration := now - bandwidthCalculatedAt in
  if duration <=? 0 then [] else
  match effectiveLocalWindowSize with
  | None => []
  | Some effectiveLocalWindowSize =>
      match minRTT, recentRTT with
      | Some minRTT, Some recentRTT =>
          let windowSize :=
            windowSize_in windowSizeFactor received duration minRTT in
          if shouldSet_in windowSizeReducingRTTThresholdFactor
               windowSize effectiveLocalWindowSize recentRTT minRTT
          then
            SetWindow windowSize ::
              (if accepted_in destroyed windowSize && onSetLocalWindowSize
               then [ReportWindow windowSize] else [])
          else []
      | _, _ => []
      end
  end.

End Tick.

(** ** The event loop *)

(** What can happen after setup.  The first three run code of the
    controller; the others are the environment changing what the code will
    read.  Nothing is assumed of the clock (it may stand still or go back)
    or of the window size a live session reports. *)
Inductive Event : Type :=
| TimerFires (t : Timeout)
| PingCompletes (result : PingResult)
| StreamPush (data : option (list byte))
| SessionCloses
| SessionDestroyed
| ClockShows (now : Z)
| SessionReports (effectiveLocalWindowSize : option Q).

(** An interval fires only while active and a ping completes only while
    outstanding.  Node emits ['close'] once, on a destroyed session; a
    destroyed session cancels its outstanding pings, whose callbacks then
    get an error and never a duration, and its [state] is empty. *)
Definition enabled (e : Event) (w : World) : bool :=
  match e with
  | TimerFires t => bool_decide (is_Some (timers w !! t))
  | PingCompletes PingError => negb (Nat.eqb (session_outstandingPings w) 0)
  | PingCompletes (PingDuration _) =>
      negb (Nat.eqb (session_outstandingPings w) 0)
      && negb (session_destroyed w)
  | SessionCloses => session_destroyed w && negb (session_closed w)
  | SessionReports (Some _) => negb (session_destroyed w)
  | _ => true
  end.

Definition handler (o : AutoWindowSizeOptions) (e : Event) : JS unit :=
  match e with
  | TimerFires t =>
      timers <- read timers ;;
      match interval_callback <$> (timers !! t) with
      | Some BandwidthCalculation => bandwidthCalculation o
      | Some Ping => ping
      | None => ret tt
      end
  | PingCompletes result =>
      write (fun w =>
        with_session_outstandingPings (pred (session_outstandingPings w)) w) ;;
      ping_callback
        (or_default PING_INTERVAL_FACTOR_DEFAULT (pingIntervalFactor o))
        (onDuration o) result
  | StreamPush data => stream_push data
  | SessionCloses =>
      write (with_session_closed true) ;;
      sessionPing_onClose ;;
      autoWindowSize_onClose
  | SessionDestroyed =>
      write (with_session_destroyed true) ;;
      write (with_session_effectiveLocalWindowSize None)
  | ClockShows now => write (with_Date_now now)
  | SessionReports o' => write (with_session_effectiveLocalWindowSize o')
  end.

(** One event of the event loop.  The callback runs to its end or to
    the exception it lets escape (see [uncaught] below); either way the
    next event finds the world it left. *)
Definition step (o : AutoWindowSizeOptions) (e : Event) (w : World)
  : option World :=
  if enabled e w then Some (exec (handler o e) w) else None.

Fixpoint run (o : AutoWindowSizeOptions) (es : list Event) (w : World)
  : option World :=
  match es with
  | [] => Some w
  | e :: es' =>
      match step o e w with
      | Some w' => run o es' w'
      | None => None
      end
  end.

(** A session on which nothing has been set up yet. *)
Definition new_session (now : Z) (effectiveLocalWindowSize : option Q)
  : World :=
  mkWorld ∅ 0%nat now false false effectiveLocalWindowSize 0%nat
          None None 0 0 None None [].

(** The durations of the pings that complete without error, in order. *)
Fixpoint ping_durations (es : list Event) : list Q :=
  match es with
  | [] => []
  | PingCompletes (PingDuration d) :: es' => d :: ping_durations es'
  | _ :: es' => ping_durations es'
  end.

Definition is_SetLocalWindowSize (e : Effect) : bool :=
  match e with
  | SetLocalWindowSize _ => true
  | _ => false
  end.

Definition is_SessionPing (e : Effect) : bool :=
  match e with
  | SessionPing => true
  | _ => false
  end.

(** The options as the code sees them after destructuring. *)
Definition minWindowSize_of (o : AutoWindowSizeOptions) : Q :=
  or_default MIN_WINDOW_SIZE_DEFAULT (minWindowSize o).
Definition windowSizeFactor_of (o : AutoWindowSizeOptions) : Q :=
  or_default WINDOW_SIZE_FACTOR_DEFAULT (windowSizeFactor o).
Definition thresholdFactor_of (o : AutoWindowSizeOptions) : Q :=
  or_default WINDOW_SIZE_REDUCING_RTT_THRESHOLD_FACTOR_DEFAULT
             (windowSizeReducingRTTThresholdFactor o).

(** ** Closed forms

    The worlds the code leaves behind and the calls it makes, written out
    as plain functions of the world; the lemmas of the second part prove
    that the code computes exactly these. *)

(** The world a tick leaves when it returns before the decision: the
    counter is zeroed and the timestamp is the clock's. *)
Definition tick_reset (w : World) : World :=
  with_bandwidthCalculatedAt (Date_now w)
    (with_receivedSinceLastBandwidthCalculation 0 w).

(** The world after [clearInterval(t)]. *)
Definition cleared (t : option Timeout) (w : World) : World :=
  match t with
  | Some h => with_timers (delete h (timers w)) w
  | None => w
  end.

(** The world after [update(duration)]: the old interval is gone and a
    fresh one calls [ping]. *)
Definition rearmed (f d : Q) (w : World) : World :=
  let h := nextTimeout w in
  let w1 := cleared (sessionPing_timer w) w in
  with_sessionPing_timer (Some h)
    (with_nextTimeout (S h)
       (with_timers (<[h := mkInterval Ping (d * f)%Q]> (timers w1)) w1)).

(** The world after the RTT callback has taken a duration. *)
Definition sampled (o : AutoWindowSizeOptions) (d : Q) (w : World) : World :=
  with_trace
    (trace w ++ (if onPingCallback o then [OnPingCallback d] else []))
    (with_minRTT (Some (Math_min_ext (nullish_Infinity (minRTT w)) d))
       (with_recentRTT (Some d) w)).

(** The world after [session.ping(cb)] has returned. *)
Definition pinged (w : World) : World :=
  with_session_outstandingPings (S (session_outstandingPings w))
    (with_trace (trace w ++ [SessionPing]) w).

(** The world in which an outstanding ping has come back. *)
Definition answered (w : World) : World :=
  with_session_outstandingPings (pred (session_outstandingPings w)) w.

Definition pingIntervalFactor_of (o : AutoWindowSizeOptions) : Q :=
  or_default PING_INTERVAL_FACTOR_DEFAULT (pingIntervalFactor o).

(** The world an event leaves, in closed form. *)
Definition after (o : AutoWindowSizeOptions) (e : Event) (w : World)
  : World :=
  match e with
  | TimerFires t =>
      match interval_callback <$> (timers w !! t) with
      | Some BandwidthCalculation => exec (bandwidthCalculation o) w
      | Some Ping =>
          if session_destroyed w then cleared (sessionPing_timer w) w
          else pinged w
      | None => w
      end
  | PingCompletes PingError => answered w
  | PingCompletes (PingDuration d) =>
      rearmed (pingIntervalFactor_of o) d (sampled o d (answered w))
  | StreamPush (Some buffer) =>
      with_receivedSinceLastBandwidthCalculation
        (receivedSinceLastBandwidthCalculation w + Z.of_nat (length buffer)) w
  | StreamPush None => w
  | SessionCloses =>
      let w1 := with_session_closed true w in
      let w2 := cleared (sessionPing_timer w1) w1 in
      cleared (autoWindowSize_timer w2) w2
  | SessionDestroyed =>
      with_session_effectiveLocalWindowSize None
        (with_session_destroyed true w)
  | ClockShows now => with_Date_now now w
  | SessionReports o' => with_session_effectiveLocalWindowSize o' w
  end.

(** The world after [setInterval(cb, d)]. *)
Definition armed (cb : TimerCallback) (d : Q) (w : World) : World :=
  with_nextTimeout (S (nextTimeout w))
    (with_timers (<[nextTimeout w := mkInterval cb d]> (timers w)) w).

(** The world after the last statements of setup, index.ts:97-140. *)
Definition ticking (interval : Q) (w : World) : World :=
  let w' := tick_reset w in
  with_autoWindowSize_timer (Some (nextTimeout w'))
    (armed BandwidthCalculation interval w').

(** The exception of [session.setLocalWindowSize(windowSize)], if it
    throws. *)
Definition refusal (windowSize : Q) (w : World) : option Exception :=
  if session_destroyed w then Some ERR_HTTP2_INVALID_SESSION
  else if valid_windowSize windowSize then None
  else Some ERR_OUT_OF_RANGE.

(** The world a successful setup leaves. *)
Definition installed (o : AutoWindowSizeOptions) (w : World) : World :=
  let w1 :=
    match initialWindowSize o with
    | Some i => with_trace (trace w ++ [SetLocalWindowSize i]) w
    | None => w
    end in
  let w2 :=
    with_sessionPing_timer None (with_minRTT None (with_recentRTT None w1)) in
  let w3 := if session_destroyed w2 then w2 else pinged w2 in
  let w4 :=
    rearmed (pingIntervalFactor_of o)
      (or_default INITIAL_PING_DURATION_REFERENCE_DEFAULT
                  (initialPingDurationReference o)) w3 in
  ticking
    (or_default BANDWIDTH_CALCULATION_INTERVAL_DEFAULT
                (bandwidthCalculationInterval o)) w4.

(** The calls one tick makes. *)
Definition tick_emits (o : AutoWindowSizeOptions) (w : World) : list Effect :=
  let duration := Date_now w - bandwidthCalculatedAt w in
  if duration <=? 0 then [] else
  match session_effectiveLocalWindowSize w, minRTT w, recentRTT w with
  | Some effective, Some m, Some r =>
      let windowSize :=
        windowSize_of (windowSizeFactor_of o)
          (receivedSinceLastBandwidthCalculation w) duration m in
      if shouldSet (thresholdFactor_of o) windowSize effective r m then
        SetLocalWindowSize windowSize ::
          match refusal windowSize w with
          | None =>
              if onSetLocalWindowSize o
              then [OnSetLocalWindowSize windowSize] else []
          | Some _ => []
          end
      else []
  | _, _, _ => []
  end.

(** The exception one tick lets escape, if any. *)
Definition tick_throws (o : AutoWindowSizeOptions) (w : World)
  : option Exception :=
  let duration := Date_now w - bandwidthCalculatedAt w in
  if duration <=? 0 then None else
  match session_effectiveLocalWindowSize w, minRTT w, recentRTT w with
  | Some effective, Some m, Some r =>
      let windowSize :=
        windowSize_of (windowSizeFactor_of o)
          (receivedSinceLastBandwidthCalculation w) duration m in
      if shouldSet (thresholdFactor_of o) windowSize effective r m
      then refusal windowSize w else None
  | _, _, _ => None
  end.

(** The exception the callback of an event lets escape, if any. *)
Definition uncaught (o : AutoWindowSizeOptions) (e : Event) (w : World)
  : option Exception :=
  match fst (handler o e w) with
  | Normal _ => None
  | Throw x => Some x
  end.

(** The calls one event makes. *)
Definition emits (o : AutoWindowSizeOptions) (e : Event) (w : World)
  : list Effect :=
  match e with
  | TimerFires t =>
      match interval_callback <$> (timers w !! t) with
      | Some BandwidthCalculation => tick_emits o w
      | Some Ping => if session_destroyed w then [] else [SessionPing]
      | None => []
      end
  | PingCompletes (PingDuration d) =>
      if onPingCallback o then [OnPingCallback d] else []
  | _ => []
  end.

(** [minRTT] after one more duration. *)
Definition observe (m : option Q) (d : Q) : option Q :=
  Some (Math_min_ext (nullish_Infinity m) d).

(** [recentRTT] after a list of durations. *)
Definition latest (r : option Q) (ds : list Q) : option Q :=
  fold_left (fun _ d => Some d) ds r.

(** ** The candidate of the specification *)

(** The candidate as the specification words it: the ceiling of the larger
    of the scaled bandwidth-delay product and the configured floor. *)
Definition candidate_spec (minWindowSize windowSizeFactor : Q)
    (received duration : Z) (minRTT : Q) : Q :=
  let bandwidth := (inject_Z received / inject_Z duration)%Q in
  Math_ceil (Math_max (bandwidth * minRTT * windowSizeFactor)%Q minWindowSize).

(** ** Invariants of the event loop *)

(** A world reached from a successful setup by events among which no ping
    completed without error. *)
Definition no_sample_yet (o : AutoWindowSizeOptions) (w : World) : Prop :=
  exists w00 w0 es,
    setupAutoWindowSize o w00 = (Normal tt, w0)
    /\ run o es w0 = Some w
    /\ ping_durations es = [].

(** Every active interval that runs the tick is the one the controller
    holds in [timer]. *)
Definition ticks_tracked (w : World) : Prop :=
  forall t i,
    timers w !! t = Some i ->
    interval_callback i = BandwidthCalculation ->
    autoWindowSize_timer w = Some t.

(** No active interval runs the tick. *)
Definition no_tick_interval (w : World) : Prop :=
  forall t i, timers w !! t = Some i -> interval_callback i = Ping.

(** The session is destroyed and the tick is off. *)
Definition terminated (w : World) : Prop :=
  session_destroyed w = true /\ no_tick_interval w.

(** The [state] of a destroyed session is empty. *)
Definition state_empty_once_destroyed (w : World) : Prop :=
  session_destroyed w = true -> session_effectiveLocalWindowSize w = None.

(** An effect that is neither a ping nor a window change. *)
Definition quiet (x : Effect) : Prop :=
  is_SessionPing x = false /\ is_SetLocalWindowSize x = false.

(** ** Sample inputs *)

(** Options that raise the floor to 128 KB and leave the rest alone. *)
Definition floor_128K : AutoWindowSizeOptions :=
  mkOptions None None (Some 131072%Q) None None None None false false.

(** Default options with both observers supplied. *)
Definition observed : AutoWindowSizeOptions :=
  mkOptions None None None None None None None true true.

(** A controller in mid-flight: 200 ms since the last tick, and RTT
    samples of [recent] over a minimum of 50 ms. *)
Definition midflight (received : Z) (effective recent : Q) : World :=
  mkWorld ∅ 2%nat 1200 false false (Some effective) 0%nat
          (Some recent) (Some 50%Q) received 1000 (Some 1%nat) (Some 0%nat)
          [].



(** Default floor, initial window of 524288.5 bytes. *)
Definition fractional : AutoWindowSizeOptions :=
  mkOptions None (Some (1048577 # 2)%Q) None None None None None true true.

(** Default floor, initial window of 1 MB, both observers supplied. *)
Definition initial_1M : AutoWindowSizeOptions :=
  mkOptions None (Some 1048576%Q) None None None None None true true.

(** Setup with both observers on a fresh session. *)
Definition observed_session (effective : Q) : World :=
  exec (setupAutoWindowSize observed) (new_session 0 (Some effective)).

(** Three pings answer in 70, 50 and 60 ms around a tick. *)
Definition three_pings : list Event :=
  [PingCompletes (PingDuration 70); TimerFires 2%nat;
   PingCompletes (PingDuration 50); ClockShows 200; TimerFires 1%nat;
   TimerFires 3%nat; PingCompletes (PingDuration 60)].

Definition after_three_pings : World :=
  let w0 := observed_session 65536 in
  default w0 (run observed three_pings w0).

(** A session on which a failed ping, 4096 bytes and 200 ms have passed
    since setup. *)
Definition before_first_sample : World :=
  let w0 := observed_session 65536 in
  default w0
    (run observed
       [PingCompletes PingError; StreamPush (Some (repeat x00 4096%nat));
        ClockShows 200] w0).

(** A session with samples of 50 and 300 ms whose third ping is
    outstanding. *)
Definition third_ping_outstanding : World :=
  let w0 := observed_session 500000 in
  default w0
    (run observed
       [PingCompletes (PingDuration 50); TimerFires 2%nat;
        PingCompletes (PingDuration 300); TimerFires 3%nat] w0).

(** A session closed while the ping of setup is outstanding. *)
Definition closed_early : World :=
  let w0 := observed_session 65536 in
  default w0 (run observed [SessionDestroyed; SessionCloses] w0).

(** What comes after that: the ping of setup is cancelled, the clock
    moves on, bytes still arrive. *)
Definition aftermath : list Event :=
  [PingCompletes PingError; ClockShows 400;
   StreamPush (Some (repeat x00 4096%nat)); SessionReports None].

(** ** Readings of a run *)

(** The bytes a list of pushes delivers: the lengths of the buffers,
    nothing for [null]. *)
Fixpoint total_length (datas : list (option (list byte))) : Z :=
  match datas with
  | [] => 0
  | Some buffer :: rest => Z.of_nat (length buffer) + total_length rest
  | None :: rest => total_length rest
  end.

(** The durations handed to [onPingCallback], oldest first. *)
Fixpoint ping_reports (tr : list Effect) : list Q :=
  match tr with
  | [] => []
  | OnPingCallback d :: rest => d :: ping_reports rest
  | _ :: rest => ping_reports rest
  end.

(** The sizes handed to [session.setLocalWindowSize], oldest first. *)
Fixpoint applied_sizes (tr : list Effect) : list Q :=
  match tr with
  | [] => []
  | SetLocalWindowSize v :: rest => v :: applied_sizes rest
  | _ :: rest => applied_sizes rest
  end.

(** The sizes handed to [onSetLocalWindowSize], oldest first. *)
Fixpoint reported_sizes (tr : list Effect) : list Q :=
  match tr with
  | [] => []
  | OnSetLocalWindowSize v :: rest => v :: reported_sizes rest
  | _ :: rest => reported_sizes rest
  end.

(** The scaled bandwidth-delay product of index.ts:119-128, before it is
    rounded and floored. *)
Definition scaled_product (windowSizeFactor : Q) (received duration : Z)
    (minRTT : Q) : Q :=
  (inject_Z received / inject_Z duration * minRTT * windowSizeFactor)%Q.

(** The duration the ping interval was last armed with: the latest
    sample, or the reference of the options before any sample. *)
Definition cadence_reference (o : AutoWindowSizeOptions) (ds : list Q) : Q :=
  match ds with
  | [] => or_default INITIAL_PING_DURATION_REFERENCE_DEFAULT
                     (initialPingDurationReference o)
  | _ => List.last ds 0%Q
  end.

(** Every active interval is held in one of the two [timer] variables. *)
Definition intervals_held (w : World) : Prop :=
  forall t i,
    timers w !! t = Some i ->
    sessionPing_timer w = Some t \/ autoWindowSize_timer w = Some t.

(** The tick interval of setup is held, apart from the ping interval and
    older than the next [Timeout]; it is active until ['close']. *)
Definition tick_interval_kept (o : AutoWindowSizeOptions) (w : World)
  : Prop :=
  exists a,
    autoWindowSize_timer w = Some a
    /\ (a < nextTimeout w)%nat
    /\ sessionPing_timer w <> Some a
    /\ (session_closed w = false ->
        timers w !! a
        = Some (mkInterval BandwidthCalculation
                  (or_default BANDWIDTH_CALCULATION_INTERVAL_DEFAULT
                              (bandwidthCalculationInterval o)))).

(** The ping interval is held; where it is active it calls [ping] at the
    cadence of the latest sample, and it is active while the session is
    not destroyed. *)
Definition ping_interval_kept (o : AutoWindowSizeOptions) (w : World)
  : Prop :=
  exists p,
    sessionPing_timer w = Some p
    /\ (forall i,
          timers w !! p = Some i ->
          i = mkInterval Ping
                (match recentRTT w with
                 | Some d => d
                 | None => or_default INITIAL_PING_DURATION_REFERENCE_DEFAULT
                                      (initialPingDurationReference o)
                 end * pingIntervalFactor_of o)%Q)
    /\ (session_destroyed w = false -> is_Some (timers w !! p)).

(** A window size factor of ten million, both observers supplied. *)
Definition steep : AutoWindowSizeOptions :=
  mkOptions None None None (Some 10000000%Q) None None None true true.

(** A session under [steep] on which a ping was answered in 50 ms and
    4096 bytes have arrived in the 200 ms since setup. *)
Definition flooded : World :=
  let w0 := exec (setupAutoWindowSize steep) (new_session 0 (Some 65536%Q)) in
  default w0
    (run steep
       [PingCompletes (PingDuration 50);
        StreamPush (Some (repeat x00 4096%nat)); ClockShows 200] w0).

(** Under [steep]: a ping answered in 50 ms, then a tick after one byte
    and a tick after 4096 bytes. *)
Definition two_growths : list Event :=
  [PingCompletes (PingDuration 50); StreamPush (Some [x00]);
   ClockShows 200; TimerFires 1%nat;
   StreamPush (Some (repeat x00 4096%nat)); ClockShows 400;
   TimerFires 1%nat].

(** A session destroyed before anything is set up on it. *)
Definition destroyed_session : World :=
  with_session_destroyed true (new_session 0 None).

(** The third ping is cancelled, 4096 bytes arrive, and both intervals
    fire 200 ms after setup. *)
Definition cancelled : list Event :=
  [PingCompletes PingError; ClockShows 200;
   StreamPush (Some (repeat x00 4096%nat)); TimerFires 1%nat;
   TimerFires 3%nat].

(** On a session destroyed while the ping of setup is outstanding, the
    ping interval fires, the ping is cancelled, and a tick follows. *)
Definition destroyed_midway : list Event :=
  [TimerFires 0%nat; PingCompletes PingError; ClockShows 200;
   TimerFires 1%nat].

(** What lies between two ticks 200 ms apart: three pushes, one of them
    the end of a stream. *)
Definition between_ticks : list (option (list byte)) :=
  [Some (repeat x00 (40 * 1000)%nat); None;
   Some (repeat x00 (160 * 1000)%nat)].

(** The bytes the pushes among a list of events deliver. *)
Fixpoint pushed (es : list Event) : Z :=
  match es with
  | [] => 0
  | StreamPush (Some buffer) :: rest => Z.of_nat (length buffer) + pushed rest
  | _ :: rest => pushed rest
  end.

(** No interval fires among the events. *)
Fixpoint no_timer_fires (es : list Event) : bool :=
  match es with
  | [] => true
  | TimerFires _ :: _ => false
  | _ :: rest => no_timer_fires rest
  end.

(** Bytes arrive while a ping is answered and the session goes away. *)
Definition arrivals : list Event :=
  [StreamPush (Some (repeat x00 1500%nat)); PingCompletes (PingDuration 40);
   StreamPush None; SessionDestroyed;
   StreamPush (Some (repeat x00 500%nat)); SessionCloses].

(** * Properties *)

(** ** Unfolding the monad *)

Ltac js_unfold :=
  unfold exec, bandwidthCalculation, onDuration, ping_callback, update, ping,
    setupSessionPing, sessionPing_onClose, autoWindowSize_onClose,
    stream_push, session_setLocalWindowSize, session_ping, call_optional,
    emit, setInterval, clearInterval, assert, bind, read, write, ret, throw.

Ltac world_unfold :=
  unfold with_timers, with_nextTimeout, with_Date_now, with_session_destroyed,
    with_session_closed, with_session_effectiveLocalWindowSize,
    with_session_outstandingPings, with_recentRTT, with_minRTT,
    with_receivedSinceLastBandwidthCalculation, with_bandwidthCalculatedAt,
    with_autoWindowSize_timer, with_sessionPing_timer, with_trace.

Ltac js_run := js_unfold; world_unfold; cbn.

(** ** Comparisons *)

Lemma Qlt_bool_iff (x y : Q) : Qlt_bool x y = true <-> (x < y)%Q.
Proof.
  unfold Qlt_bool. rewrite negb_true_iff. split.
  - intros H. apply Qnot_le_lt. intros Hle.
    apply Qle_bool_iff in Hle. congruence.
  - intros H. destruct (Qle_bool y x) eqn:E; [|reflexivity].
    apply Qle_bool_iff in E. exfalso. exact (Qlt_not_le _ _ H E).
Qed.

Lemma Qlt_bool_false_iff (x y : Q) : Qlt_bool x y = false <-> (y <= x)%Q.
Proof.
  unfold Qlt_bool. rewrite negb_false_iff. apply Qle_bool_iff.
Qed.

Lemma shouldSet_iff (thr windowSize effective r m : Q) :
  shouldSet thr windowSize effective r m = true <->
  (effective < windowSize \/ (windowSize < effective /\ m * thr < r))%Q.
Proof.
  unfold shouldSet.
  rewrite orb_true_iff, andb_true_iff, !Qlt_bool_iff. reflexivity.
Qed.

Lemma Math_min_spec (q d : Q) :
  (Math_min q d <= q)%Q /\ (Math_min q d <= d)%Q
  /\ (Math_min q d = q \/ Math_min q d = d).
Proof.
  unfold Math_min. destruct (Qlt_bool d q) eqn:E.
  - apply Qlt_bool_iff in E.
    split; [apply Qlt_le_weak; exact E|]. split; [apply Qle_refl|].
    right. reflexivity.
  - apply Qlt_bool_false_iff in E.
    split; [apply Qle_refl|]. split; [exact E|]. left. reflexivity.
Qed.

(** ** The code computes the closed forms *)

(** What the call on the session does. *)
Lemma session_setLocalWindowSize_cases (windowSize : Q) (w : World) :
  session_setLocalWindowSize windowSize w =
  (match refusal windowSize w with
   | None => Normal tt
   | Some x => Throw x
   end,
   with_trace (trace w ++ [SetLocalWindowSize windowSize]) w).
Proof.
  unfold refusal. js_run.
  destruct (session_destroyed w); [reflexivity|].
  destruct (valid_windowSize windowSize); reflexivity.
Qed.

(** What one tick does, case by case. *)
Lemma bandwidthCalculation_cases (o : AutoWindowSizeOptions) (w : World) :
  let duration := Date_now w - bandwidthCalculatedAt w in
  bandwidthCalculation o w =
  (match tick_throws o w with
   | None => Normal tt
   | Some x => Throw x
   end,
   if duration <=? 0 then tick_reset w else
   match session_effectiveLocalWindowSize w, minRTT w, recentRTT w with
   | Some effective, Some m, Some r =>
       let windowSize :=
         windowSize_of (windowSizeFactor_of o)
           (receivedSinceLastBandwidthCalculation w) duration m in
       if shouldSet (thresholdFactor_of o) windowSize effective r m then
         with_trace
           (trace w ++ SetLocalWindowSize windowSize ::
              match refusal windowSize w with
              | None =>
                  if onSetLocalWindowSize o
                  then [OnSetLocalWindowSize windowSize] else []
              | Some _ => []
              end)
           (tick_reset w)
       else tick_reset w
   | _, _, _ => tick_reset w
   end).
Proof.
  unfold tick_throws, refusal, tick_reset, windowSizeFactor_of,
    thresholdFactor_of.
  js_run.
  destruct (Date_now w - bandwidthCalculatedAt w <=? 0); [reflexivity|].
  destruct (session_effectiveLocalWindowSize w) as [eff|]; cbn;
    [|reflexivity].
  destruct (minRTT w) as [m|]; cbn; [|reflexivity].
  destruct (recentRTT w) as [r|]; cbn; [|reflexivity].
  destruct (shouldSet _ _ _ _ _); cbn; [|reflexivity].
  destruct (session_destroyed w); cbn; [reflexivity|].
  destruct (valid_windowSize _); cbn; [|reflexivity].
  destruct (onSetLocalWindowSize o); cbn; [|reflexivity].
  rewrite <- app_assoc. reflexivity.
Qed.

Lemma clearInterval_cases (t : option Timeout) (w : World) :
  clearInterval t w = (Normal tt, cleared t w).
Proof. destruct t; reflexivity. Qed.

Lemma update_cases (f d : Q) (w : World) :
  update f d w = (Normal tt, rearmed f d w).
Proof.
  unfold update, rearmed, bind, read. rewrite clearInterval_cases.
  destruct (sessionPing_timer w); reflexivity.
Qed.

Lemma ping_cases (w : World) :
  ping w =
  (Normal tt,
   if session_destroyed w then cleared (sessionPing_timer w) w
   else pinged w).
Proof.
  unfold ping, bind, read.
  destruct (session_destroyed w); [apply clearInterval_cases|reflexivity].
Qed.

Lemma onDuration_cases (o : AutoWindowSizeOptions) (d : Q) (w : World) :
  onDuration o d w = (Normal tt, sampled o d w).
Proof.
  unfold sampled. js_run.
  destruct (onPingCallback o); cbn; [reflexivity|].
  rewrite app_nil_r. reflexivity.
Qed.

Lemma ping_callback_cases (o : AutoWindowSizeOptions) (f : Q)
    (result : PingResult) (w : World) :
  ping_callback f (onDuration o) result w =
  (Normal tt,
   match result with
   | PingError => w
   | PingDuration d => rearmed f d (sampled o d w)
   end).
Proof.
  destruct result as [|d]; [reflexivity|].
  unfold ping_callback, bind. rewrite onDuration_cases.
  apply update_cases.
Qed.

(** What the callback of an event does: only a tick can throw. *)
Lemma handler_cases (o : AutoWindowSizeOptions) (e : Event) (w : World) :
  handler o e w =
  (match e with
   | TimerFires t =>
       match interval_callback <$> (timers w !! t) with
       | Some BandwidthCalculation =>
           match tick_throws o w with
           | None => Normal tt
           | Some x => Throw x
           end
       | _ => Normal tt
       end
   | _ => Normal tt
   end,
   after o e w).
Proof.
  destruct e as [t|result|data| | |now|o']; cbn [handler after].
  - unfold bind, read.
    destruct (interval_callback <$> timers w !! t) as [[|]|].
    + unfold exec. rewrite bandwidthCalculation_cases. reflexivity.
    + apply ping_cases.
    + reflexivity.
  - unfold bind at 1. unfold write at 1. fold (answered w).
    rewrite ping_callback_cases. destruct result; reflexivity.
  - destruct data; reflexivity.
  - unfold bind, write, sessionPing_onClose, autoWindowSize_onClose, bind,
      read.
    rewrite clearInterval_cases. cbn zeta. apply clearInterval_cases.
  - reflexivity.
  - reflexivity.
  - reflexivity.
Qed.

Lemma handler_exec (o : AutoWindowSizeOptions) (e : Event) (w : World) :
  exec (handler o e) w = after o e w.
Proof. unfold exec. rewrite handler_cases. reflexivity. Qed.

Lemma step_cases (o : AutoWindowSizeOptions) (e : Event) (w w' : World) :
  step o e w = Some w' -> enabled e w = true /\ w' = after o e w.
Proof.
  unfold step. rewrite handler_exec.
  destruct (enabled e w); [|discriminate].
  intros [= <-]. split; reflexivity.
Qed.

Lemma setupSessionPing_cases (r f : Q) (w : World) :
  setupSessionPing r f w =
  (Normal tt,
   let w2 := with_sessionPing_timer None w in
   rearmed f r (if session_destroyed w2 then w2 else pinged w2)).
Proof.
  unfold setupSessionPing, bind. unfold write at 1.
  rewrite ping_cases. cbn zeta. rewrite update_cases.
  destruct (session_destroyed w); reflexivity.
Qed.

Lemma bind_normal {A B : Type} (m : JS A) (k : A -> JS B) (w w' : World)
    (a : A) :
  m w = (Normal a, w') -> bind m k w = k a w'.
Proof. unfold bind. intros ->. reflexivity. Qed.

Lemma setup_tail (interval : Q) (w : World) :
  (write (with_receivedSinceLastBandwidthCalculation 0) ;;
   now <- read Date_now ;;
   write (with_bandwidthCalculatedAt now) ;;
   timer <- setInterval BandwidthCalculation interval ;;
   write (with_autoWindowSize_timer (Some timer))) w
  = (Normal tt, ticking interval w).
Proof. reflexivity. Qed.

Lemma write_cases (f : World -> World) (w : World) :
  write f w = (Normal tt, f w).
Proof. reflexivity. Qed.

(** Setup throws at the assertion, or where the call on the session
    throws, and goes through otherwise. *)
Lemma setupAutoWindowSize_cases (o : AutoWindowSizeOptions) (w : World) :
  setupAutoWindowSize o w =
  match initialWindowSize o with
  | Some i =>
      if Qle_bool (minWindowSize_of o) i then
        match refusal i w with
        | None => (Normal tt, installed o w)
        | Some x =>
            (Throw x, with_trace (trace w ++ [SetLocalWindowSize i]) w)
        end
      else (Throw AssertionError, w)
  | None => (Normal tt, installed o w)
  end.
Proof.
  unfold setupAutoWindowSize, installed, minWindowSize_of,
    pingIntervalFactor_of.
  destruct (initialWindowSize o) as [i|].
  - destruct (Qle_bool _ i); [|reflexivity].
    unfold bind at 1.
    change ((assert true ;; session_setLocalWindowSize i) w)
      with (session_setLocalWindowSize i w).
    rewrite session_setLocalWindowSize_cases.
    destruct (refusal i w) as [x|]; [reflexivity|].
    rewrite (bind_normal _ _ _ _ _ (write_cases _ _)).
    rewrite (bind_normal _ _ _ _ _ (write_cases _ _)).
    rewrite (bind_normal _ _ _ _ _ (setupSessionPing_cases _ _ _)).
    apply setup_tail.
  - rewrite (bind_normal (ret tt) _ w w tt eq_refl).
    rewrite (bind_normal _ _ _ _ _ (write_cases _ _)).
    rewrite (bind_normal _ _ _ _ _ (write_cases _ _)).
    rewrite (bind_normal _ _ _ _ _ (setupSessionPing_cases _ _ _)).
    apply setup_tail.
Qed.

Lemma installed_recentRTT (o : AutoWindowSizeOptions) (w : World) :
  recentRTT (installed o w) = None.
Proof.
  unfold installed.
  destruct (initialWindowSize o), (session_destroyed w) eqn:Hd;
    cbn; rewrite Hd; reflexivity.
Qed.

Lemma installed_minRTT (o : AutoWindowSizeOptions) (w : World) :
  minRTT (installed o w) = None.
Proof.
  unfold installed.
  destruct (initialWindowSize o), (session_destroyed w) eqn:Hd;
    cbn; rewrite Hd; reflexivity.
Qed.

Lemma installed_trace (o : AutoWindowSizeOptions) (w : World) :
  trace (installed o w) =
  trace w
  ++ match initialWindowSize o with
     | Some i => [SetLocalWindowSize i]
     | None => []
     end
  ++ (if session_destroyed w then [] else [SessionPing]).
Proof.
  unfold installed.
  destruct (initialWindowSize o), (session_destroyed w) eqn:Hd;
    cbn; rewrite Hd; cbn; rewrite ?app_nil_r, <- ?app_assoc; reflexivity.
Qed.

Lemma setup_normal (o : AutoWindowSizeOptions) (w w' : World) :
  setupAutoWindowSize o w = (Normal tt, w') -> w' = installed o w.
Proof.
  rewrite setupAutoWindowSize_cases.
  destruct (initialWindowSize o) as [i|];
    [destruct (Qle_bool _ i); [destruct (refusal i w)|]|]; congruence.
Qed.

(** ** What an event adds to the trace *)

Lemma tick_exec (o : AutoWindowSizeOptions) (w : World) :
  exec (bandwidthCalculation o) w =
  with_trace (trace w ++ tick_emits o w) (tick_reset w).
Proof.
  unfold exec, tick_emits. rewrite bandwidthCalculation_cases. cbn zeta.
  cbn [snd].
  assert (Hnil : tick_reset w = with_trace (trace w ++ []) (tick_reset w)).
  { rewrite app_nil_r. reflexivity. }
  destruct (_ <=? 0); [exact Hnil|].
  destruct (session_effectiveLocalWindowSize w); [|exact Hnil].
  destruct (minRTT w); [|exact Hnil].
  destruct (recentRTT w); [|exact Hnil].
  destruct (shouldSet _ _ _ _ _); [reflexivity|exact Hnil].
Qed.

Lemma uncaught_cases (o : AutoWindowSizeOptions) (e : Event) (w : World) :
  uncaught o e w =
  match e with
  | TimerFires t =>
      match interval_callback <$> (timers w !! t) with
      | Some BandwidthCalculation => tick_throws o w
      | _ => None
      end
  | _ => None
  end.
Proof.
  unfold uncaught. rewrite handler_cases. cbn [fst].
  destruct e as [t|result|data| | |now|o']; try reflexivity.
  destruct (interval_callback <$> timers w !! t) as [[|]|];
    try reflexivity.
  destruct (tick_throws o w); reflexivity.
Qed.

Lemma cleared_trace (t : option Timeout) (w : World) :
  trace (cleared t w) = trace w.
Proof. destruct t; reflexivity. Qed.

Lemma rearmed_trace (f d : Q) (w : World) :
  trace (rearmed f d w) = trace w.
Proof. unfold rearmed. destruct (sessionPing_timer w); reflexivity. Qed.

Lemma after_trace (o : AutoWindowSizeOptions) (e : Event) (w : World) :
  trace (after o e w) = trace w ++ emits o e w.
Proof.
  destruct e as [t|[|d]|[buffer|]| | |now|o']; cbn [after emits];
    rewrite ?app_nil_r; try reflexivity.
  - destruct (interval_callback <$> timers w !! t) as [[|]|].
    + rewrite tick_exec. reflexivity.
    + destruct (session_destroyed w);
        [rewrite cleared_trace, app_nil_r|]; reflexivity.
    + rewrite app_nil_r. reflexivity.
  - rewrite rearmed_trace. reflexivity.
  - cbn zeta. rewrite !cleared_trace. reflexivity.
Qed.

(** ** What an event does to the RTT samples *)

Lemma cleared_fields (t : option Timeout) (w : World) :
  recentRTT (cleared t w) = recentRTT w
  /\ minRTT (cleared t w) = minRTT w
  /\ session_destroyed (cleared t w) = session_destroyed w
  /\ autoWindowSize_timer (cleared t w) = autoWindowSize_timer w
  /\ sessionPing_timer (cleared t w) = sessionPing_timer w.
Proof. destruct t; repeat split; reflexivity. Qed.

Lemma rearmed_fields (f d : Q) (w : World) :
  recentRTT (rearmed f d w) = recentRTT w
  /\ minRTT (rearmed f d w) = minRTT w
  /\ session_destroyed (rearmed f d w) = session_destroyed w
  /\ autoWindowSize_timer (rearmed f d w) = autoWindowSize_timer w.
Proof.
  unfold rearmed. destruct (sessionPing_timer w); repeat split; reflexivity.
Qed.

Lemma after_rtt (o : AutoWindowSizeOptions) (e : Event) (w : World) :
  match e with
  | PingCompletes (PingDuration d) =>
      recentRTT (after o e w) = Some d
      /\ minRTT (after o e w) = observe (minRTT w) d
  | _ =>
      recentRTT (after o e w) = recentRTT w
      /\ minRTT (after o e w) = minRTT w
  end.
Proof.
  destruct e as [t|[|d]|[buffer|]| | |now|o']; cbn [after];
    try (split; reflexivity).
  - destruct (interval_callback <$> timers w !! t) as [[|]|].
    + rewrite tick_exec. split; reflexivity.
    + destruct (session_destroyed w); [|split; reflexivity].
      destruct (cleared_fields (sessionPing_timer w) w) as (Hr & Hm & _).
      split; assumption.
    + split; reflexivity.
  - destruct (rearmed_fields (pingIntervalFactor_of o) d
                (sampled o d (answered w))) as (Hr & Hm & _).
    rewrite Hr, Hm. split; reflexivity.
  - cbn zeta.
    set (w1 := with_session_closed true w).
    set (w2 := cleared (sessionPing_timer w1) w1).
    destruct (cleared_fields (autoWindowSize_timer w2) w2) as (Hr & Hm & _).
    destruct (cleared_fields (sessionPing_timer w1) w1) as (Hr' & Hm' & _).
    rewrite Hr, Hm. fold w2 in Hr', Hm'. rewrite Hr', Hm'.
    split; reflexivity.
Qed.

Lemma run_rtt (o : AutoWindowSizeOptions) (es : list Event) (w w' : World) :
  run o es w = Some w' ->
  minRTT w' = fold_left observe (ping_durations es) (minRTT w)
  /\ recentRTT w' = latest (recentRTT w) (ping_durations es).
Proof.
  revert w. induction es as [|e es IH]; intros w; cbn [run].
  - intros [= <-]. split; reflexivity.
  - destruct (step o e w) as [w1|] eqn:Hs; [|discriminate].
    intros Hrun. destruct (IH _ Hrun) as [Hm Hr].
    apply step_cases in Hs. destruct Hs as [_ ->].
    pose proof (after_rtt o e w) as Ha.
    destruct e as [t|[|d]|data| | |now|o']; cbn [ping_durations];
      destruct Ha as [Ha1 Ha2]; rewrite Hm, Hr, Ha1, Ha2; split; reflexivity.
Qed.

Lemma fold_observe_Some (ds : list Q) (m0 : Q) :
  exists m,
    fold_left observe ds (Some m0) = Some m
    /\ (m = m0 \/ In m ds)
    /\ (m <= m0)%Q
    /\ (forall d, In d ds -> (m <= d)%Q).
Proof.
  revert m0. induction ds as [|d ds IH]; intros m0; cbn [fold_left].
  - exists m0. split; [reflexivity|]. split; [left; reflexivity|].
    split; [apply Qle_refl|]. intros d [].
  - unfold observe at 2. cbn [nullish_Infinity Math_min_ext].
    destruct (IH (Math_min m0 d)) as (m & Hf & Hin & Hle & Hall).
    destruct (Math_min_spec m0 d) as (H0 & Hd & Hor).
    exists m. split; [exact Hf|]. split; [|split].
    + destruct Hin as [->|Hin]; [|right; right; exact Hin].
      destruct Hor as [->| ->]; [left; reflexivity|right; left; reflexivity].
    + eapply Qle_trans; eassumption.
    + intros d' [<-|Hd']; [eapply Qle_trans; eassumption|].
      apply Hall. exact Hd'.
Qed.

Lemma fold_observe_None (ds : list Q) :
  ds <> [] ->
  exists m,
    fold_left observe ds None = Some m
    /\ In m ds
    /\ (forall d, In d ds -> (m <= d)%Q).
Proof.
  destruct ds as [|d ds]; [congruence|]. intros _. cbn [fold_left].
  unfold observe at 2. cbn [nullish_Infinity Math_min_ext].
  destruct (fold_observe_Some ds d) as (m & Hf & Hin & Hle & Hall).
  exists m. split; [exact Hf|]. split.
  - destruct Hin as [->|Hin]; [left; reflexivity|right; exact Hin].
  - intros d' [<-|Hd']; [exact Hle|apply Hall; exact Hd'].
Qed.

Lemma latest_last (r : option Q) (ds : list Q) :
  ds <> [] -> latest r ds = Some (List.last ds 0%Q).
Proof.
  unfold latest. revert r.
  induction ds as [|d ds IH]; intros r Hne; [congruence|].
  cbn [fold_left]. destruct ds as [|d' ds]; [reflexivity|].
  rewrite IH by discriminate. reflexivity.
Qed.

(** ** The decision of a tick *)

(** Scenario C: a candidate of 300000 under a window of 500000 with
    recentRTT 300 over minRTT 50 is applied, and reported. *)
Example scenario_C :
  trace (exec (bandwidthCalculation observed)
              (midflight 600000 500000 300)) =
  [SetLocalWindowSize 300000; OnSetLocalWindowSize 300000].
Proof. reflexivity. Qed.

(** Scenario B: the same candidate with recentRTT 60 is not applied. *)
Example scenario_B :
  trace (exec (bandwidthCalculation observed)
              (midflight 600000 500000 60)) = [].
Proof. reflexivity. Qed.

(** Scenario A: 1000000 bytes in 200 ms at minRTT 50 grow the window to
    500000. *)
Example scenario_A :
  trace (exec (bandwidthCalculation observed)
              (midflight 1000000 65536 50)) =
  [SetLocalWindowSize 500000; OnSetLocalWindowSize 500000].
Proof. reflexivity. Qed.

(** ** The decision of a tick, in doubles as in rationals *)

(** The tick of the world makes the calls of [tick_calls] in exact
    arithmetic. *)
Lemma tick_emits_exact (o : AutoWindowSizeOptions) (w : World) :
  tick_emits o w
  = map effect_of_call
      (tick_calls (A := exact) (onSetLocalWindowSize o)
         (windowSizeFactor_of o) (thresholdFactor_of o)
         (Date_now w) (bandwidthCalculatedAt w)
         (receivedSinceLastBandwidthCalculation w) (session_destroyed w)
         (session_effectiveLocalWindowSize w) (minRTT w) (recentRTT w)).
Proof.
  unfold tick_emits, tick_calls. cbv zeta.
  destruct (_ <=? 0); [reflexivity|].
  destruct (session_effectiveLocalWindowSize w) as [effective|];
    [|reflexivity].
  destruct (minRTT w) as [m|]; [|reflexivity].
  destruct (recentRTT w) as [r|]; [|reflexivity].
  change (shouldSet_in (A := exact) (thresholdFactor_of o)
            (windowSize_in (A := exact) (windowSizeFactor_of o)
               (receivedSinceLastBandwidthCalculation w)
               (Date_now w - bandwidthCalculatedAt w) m) effective r m)
    with (shouldSet (thresholdFactor_of o)
            (windowSize_of (windowSizeFactor_of o)
               (receivedSinceLastBandwidthCalculation w)
               (Date_now w - bandwidthCalculatedAt w) m) effective r m).
  destruct (shouldSet _ _ _ _ _); [|reflexivity].
  change (windowSize_in (A := exact) (windowSizeFactor_of o)
            (receivedSinceLastBandwidthCalculation w)
            (Date_now w - bandwidthCalculatedAt w) m)
    with (windowSize_of (windowSizeFactor_of o)
            (receivedSinceLastBandwidthCalculation w)
            (Date_now w - bandwidthCalculatedAt w) m).
  unfold refusal, accepted_in. cbn [int32 exact].
  destruct (session_destroyed w); [reflexivity|].
  destruct (valid_windowSize _); [|reflexivity].
  destruct (onSetLocalWindowSize o); reflexivity.
Qed.

Lemma bandwidthCalculation_calls (o : AutoWindowSizeOptions) (w : World) :
  trace (exec (bandwidthCalculation o) w)
  = trace w
    ++ map effect_of_call
         (tick_calls (A := exact) (onSetLocalWindowSize o)
            (windowSizeFactor_of o) (thresholdFactor_of o)
            (Date_now w) (bandwidthCalculatedAt w)
            (receivedSinceLastBandwidthCalculation w) (session_destroyed w)
            (session_effectiveLocalWindowSize w) (minRTT w) (recentRTT w)).
Proof. rewrite tick_exec, <- tick_emits_exact. reflexivity. Qed.



(** The same tick in exact arithmetic, where the product is 102413. *)
Example tick_calls_exact_204826 :
  tick_calls (A := exact) true 2%Q 5%Q 1200 1000 204826 false
             (Some 102413%Q) (Some 50%Q) (Some 50%Q)
  = [].
Proof. vm_compute. reflexivity. Qed.

(** In doubles 0.3 * 5 is 1.5, so a recentRTT of 1.5 over a minRTT of 0.3
    does not let a window of 200000 shrink. *)
Example tick_calls_threshold_rounds :
  tick_calls (A := binary64) true 2%float 5%float 1200 1000 0 false
             (Some 200000%float) (Some 0x1.3333333333333p-2%float)
             (Some 1.5%float)
  = [].
Proof. vm_compute. reflexivity. Qed.

(** A window size beyond 2^31 - 1 is handed to the session, which
    refuses it; the observer is not called. *)
Example tick_calls_beyond_int32 :
  tick_calls (A := binary64) true 2%float 5%float 1001 1000 30000000 false
             (Some 65536%float) (Some 50%float) (Some 50%float)
  = [SetWindow 3000000000%float].
Proof. vm_compute. reflexivity. Qed.

(** ** The floor of the window *)

(** Whatever the options say, the window a tick computes is at least the
    built-in 64 KB. *)
Lemma windowSize_of_ge_default (f : Q) (received duration : Z) (m : Q) :
  (MIN_WINDOW_SIZE_DEFAULT <= windowSize_of f received duration m)%Q.
Proof.
  unfold windowSize_of, Math_max.
  destruct (Qlt_bool _ MIN_WINDOW_SIZE_DEFAULT) eqn:E.
  - apply Qle_refl.
  - apply Qlt_bool_false_iff in E. exact E.
Qed.

(** C1: the tick takes its floor from the constant 64 KB, not from the
    option.  With [minWindowSize] raised to 128 KB, a quiet interval under
    a degraded RTT shrinks a window of 200000 to 65536, below the
    configured floor. *)
Theorem tick_ignores_configured_floor :
  trace <$> run floor_128K
              [PingCompletes (PingDuration 50); TimerFires 2%nat;
               PingCompletes (PingDuration 300); ClockShows 200;
               TimerFires 1%nat]
              (exec (setupAutoWindowSize floor_128K)
                    (new_session 0 (Some 200000%Q)))
  = Some [SessionPing; SessionPing; SetLocalWindowSize 65536]
  /\ (65536 < minWindowSize_of floor_128K)%Q.
Proof. split; vm_compute; reflexivity. Qed.

Lemma Qceiling_le_integer (x : Q) (n : Z) :
  (x <= inject_Z n)%Q -> (Qceiling x <= n)%Z.
Proof.
  intros H. apply Qceiling_resp_le in H. rewrite Qceiling_Z in H. exact H.
Qed.

(** Under the default floor the two agree: taking the ceiling before or
    after the maximum with an integer gives the same number. *)
Lemma windowSize_of_default_floor (f : Q) (received duration : Z) (m : Q) :
  windowSize_of f received duration m =
  candidate_spec MIN_WINDOW_SIZE_DEFAULT f received duration m.
Proof.
  unfold windowSize_of, candidate_spec, Math_max, Math_ceil. cbn zeta.
  set (x := (inject_Z received / inject_Z duration * m * f)%Q).
  change MIN_WINDOW_SIZE_DEFAULT with (inject_Z 65536).
  destruct (Qlt_bool x (inject_Z 65536)) eqn:Ex;
    destruct (Qlt_bool (inject_Z (Qceiling x)) (inject_Z 65536)) eqn:Ec;
    try reflexivity.
  - apply Qlt_bool_iff in Ex. apply Qlt_bool_false_iff in Ec.
    rewrite <- Zle_Qle in Ec.
    pose proof (Qceiling_le_integer x 65536 (Qlt_le_weak _ _ Ex)) as Hc.
    f_equal. rewrite Qceiling_Z. lia.
  - apply Qlt_bool_false_iff in Ex. apply Qlt_bool_iff in Ec.
    exfalso. apply (Qlt_irrefl x).
    eapply Qle_lt_trans; [apply Qle_ceiling|].
    eapply Qlt_le_trans; [exact Ec | exact Ex].
Qed.

(** C2: the candidate of the code and the candidate of the specification
    differ once the configured floor is not 64 KB: with [minWindowSize] at
    128 KB and nothing received, the code computes 65536 where the
    specification asks for 131072. *)
Theorem candidate_ignores_configured_floor :
  windowSize_of (windowSizeFactor_of floor_128K) 0 200 50 = 65536%Q
  /\ candidate_spec (minWindowSize_of floor_128K)
                    (windowSizeFactor_of floor_128K) 0 200 50 = 131072%Q
  /\ trace (exec (bandwidthCalculation floor_128K)
                 (midflight 0 200000 300)) = [SetLocalWindowSize 65536].
Proof. repeat split; vm_compute; reflexivity. Qed.

(** ** Ticks that decide nothing *)

(** A tick that finds recentRTT or minRTT unset, or the effective local
    window size undefined, makes no call. *)
Lemma tick_without_samples (o : AutoWindowSizeOptions) (w : World) :
  recentRTT w = None \/ minRTT w = None \/
  session_effectiveLocalWindowSize w = None ->
  trace (exec (bandwidthCalculation o) w) = trace w.
Proof.
  intros H. unfold exec. rewrite bandwidthCalculation_cases. cbn zeta.
  destruct (_ <=? 0); [reflexivity|]. cbn [snd].
  destruct H as [H|[H|H]]; rewrite H.
  - destruct (session_effectiveLocalWindowSize w), (minRTT w); reflexivity.
  - destruct (session_effectiveLocalWindowSize w); reflexivity.
  - reflexivity.
Qed.

Lemma no_sample_yet_unset (o : AutoWindowSizeOptions) (w : World) :
  no_sample_yet o w -> recentRTT w = None /\ minRTT w = None.
Proof.
  intros (w00 & w0 & es & Hsetup & Hrun & Hnone).
  apply setup_normal in Hsetup. subst w0.
  destruct (run_rtt _ _ _ _ Hrun) as [Hm Hr].
  rewrite Hnone, installed_minRTT in Hm.
  rewrite Hnone, installed_recentRTT in Hr.
  split; assumption.
Qed.

(** C8: a tick that comes before any ping has completed without error, or
    that finds recentRTT or minRTT unset, or the effective local window
    size undefined, calls neither setLocalWindowSize nor anything else. *)
Theorem tick_skips_without_samples (o : AutoWindowSizeOptions) (w : World) :
  no_sample_yet o w \/ recentRTT w = None \/ minRTT w = None \/
  session_effectiveLocalWindowSize w = None ->
  trace (exec (bandwidthCalculation o) w) = trace w.
Proof.
  intros [H|H].
  - apply tick_without_samples. left.
    apply (no_sample_yet_unset o w H).
  - apply tick_without_samples. exact H.
Qed.

Lemma tick_skips_without_samples_witness :
  trace (exec (bandwidthCalculation observed) before_first_sample)
  = trace before_first_sample.
Proof.
  apply (tick_skips_without_samples observed before_first_sample).
  left. exists (new_session 0 (Some 65536%Q)).
  exists (observed_session 65536).
  exists [PingCompletes PingError; StreamPush (Some (repeat x00 4096%nat));
          ClockShows 200].
  split; [vm_compute; reflexivity|].
  split; [vm_compute; reflexivity|reflexivity].
Defined.

(** C6, as the code has it: a tick whose duration is not positive zeroes
    the byte counter and moves the timestamp to the clock; nothing else
    changes, and no window is applied. *)
Theorem tick_of_nonpositive_duration (o : AutoWindowSizeOptions) (w : World) :
  Date_now w - bandwidthCalculatedAt w <= 0 ->
  exec (bandwidthCalculation o) w =
  with_bandwidthCalculatedAt (Date_now w)
    (with_receivedSinceLastBandwidthCalculation 0 w).
Proof.
  intros H. unfold exec. rewrite bandwidthCalculation_cases. cbn zeta.
  apply Z.leb_le in H. rewrite H. reflexivity.
Qed.

(** Against C6 as worded: the bytes counted before such a tick are not
    kept for the next one.  1000 bytes arrive, the interval fires while
    the clock still shows the time of setup, and the counter is back
    to 0. *)
Lemma nonpositive_tick_drops_bytes :
  let w0 := exec (setupAutoWindowSize no_options)
                 (new_session 0 (Some 65536%Q)) in
  let arrival := StreamPush (Some (repeat x00 1000%nat)) in
  (fun w => (Date_now w - bandwidthCalculatedAt w,
             receivedSinceLastBandwidthCalculation w))
    <$> run no_options [arrival] w0 = Some (0, 1000)
  /\ receivedSinceLastBandwidthCalculation
       <$> run no_options [arrival; TimerFires 1%nat] w0 = Some 0.
Proof. split; vm_compute; reflexivity. Qed.

Lemma tick_of_nonpositive_duration_witness :
  receivedSinceLastBandwidthCalculation
    (exec (bandwidthCalculation observed)
          (with_Date_now 1000 (midflight 4096 65536 50))) = 0.
Proof.
  rewrite (tick_of_nonpositive_duration observed
             (with_Date_now 1000 (midflight 4096 65536 50))).
  - reflexivity.
  - vm_compute. discriminate.
Defined.

(** ** The RTT samples *)

(** C5: after any run of events from setup in which the pings that
    completed without error reported the durations d1..dN (N > 0), minRTT
    is one of them and no larger than any of them, and recentRTT is dN;
    whatever happens afterwards, minRTT does not increase. *)
Theorem minRTT_is_minimum_of_durations
    (o : AutoWindowSizeOptions) (w00 w0 : World) (es : list Event)
    (w : World) :
  setupAutoWindowSize o w00 = (Normal tt, w0) ->
  run o es w0 = Some w ->
  ping_durations es <> [] ->
  (exists m,
      minRTT w = Some m
      /\ In m (ping_durations es)
      /\ (forall d, In d (ping_durations es) -> (m <= d)%Q)
      /\ (forall es' w', run o es' w = Some w' ->
            exists m', minRTT w' = Some m' /\ (m' <= m)%Q))
  /\ recentRTT w = Some (List.last (ping_durations es) 0%Q).
Proof.
  intros Hsetup Hrun Hne.
  apply setup_normal in Hsetup. subst w0.
  destruct (run_rtt _ _ _ _ Hrun) as [Hm Hr].
  rewrite installed_minRTT in Hm. rewrite installed_recentRTT in Hr.
  split.
  - destruct (fold_observe_None _ Hne) as (m & Hf & Hin & Hall).
    exists m. rewrite Hm. split; [exact Hf|]. split; [exact Hin|].
    split; [exact Hall|].
    intros es' w' Hrun'. destruct (run_rtt _ _ _ _ Hrun') as [Hm' _].
    rewrite Hm, Hf in Hm'.
    destruct (fold_observe_Some (ping_durations es') m)
      as (m' & Hf' & _ & Hle & _).
    exists m'. split; [congruence|exact Hle].
  - rewrite Hr. apply latest_last. exact Hne.
Qed.

Lemma minRTT_is_minimum_of_durations_witness :
  recentRTT after_three_pings = Some 60%Q.
Proof.
  refine (proj2 (minRTT_is_minimum_of_durations observed
                   (new_session 0 (Some 65536%Q))
                   (observed_session 65536)
                   three_pings after_three_pings _ _ _)).
  - vm_compute. reflexivity.
  - vm_compute. reflexivity.
  - vm_compute. discriminate.
Defined.

Example minRTT_after_three_pings :
  minRTT after_three_pings = Some 50%Q.
Proof. vm_compute. reflexivity. Qed.

(** ** Pings that fail *)

(** C7: a ping that completes with an error leaves recentRTT and minRTT as
    they were, calls no observer and touches no interval; a tick that
    follows, whatever the clock and the session then report, does exactly
    what it would have done without the failed ping. *)
Theorem failed_ping_changes_nothing
    (o : AutoWindowSizeOptions) (w w' : World) :
  step o (PingCompletes PingError) w = Some w' ->
  recentRTT w' = recentRTT w
  /\ minRTT w' = minRTT w
  /\ trace w' = trace w
  /\ timers w' = timers w
  /\ sessionPing_timer w' = sessionPing_timer w
  /\ (forall now effective,
        let at_tick v :=
          with_Date_now now
            (with_session_effectiveLocalWindowSize effective v) in
        trace (exec (bandwidthCalculation o) (at_tick w'))
        = trace (exec (bandwidthCalculation o) (at_tick w))).
Proof.
  intros Hs. apply step_cases in Hs. destruct Hs as [_ ->].
  cbn [after]. do 5 (split; [reflexivity|]).
  intros now effective. cbv zeta.
  rewrite !tick_exec. reflexivity.
Qed.

Lemma failed_ping_changes_nothing_witness :
  minRTT (answered third_ping_outstanding) = minRTT third_ping_outstanding.
Proof.
  refine (proj1 (proj2 (failed_ping_changes_nothing observed
                          third_ping_outstanding
                          (answered third_ping_outstanding) _))).
  vm_compute. reflexivity.
Defined.

(** After the failed ping the next tick still decides on the samples of
    50 and 300 ms: nothing arrived in 200 ms, so the window of 500000
    shrinks to the floor. *)
Example tick_after_failed_ping :
  trace <$> run observed
              [PingCompletes PingError; ClockShows 200; TimerFires 1%nat]
              third_ping_outstanding
  = Some [SessionPing; OnPingCallback 50; SessionPing; OnPingCallback 300;
          SessionPing; SetLocalWindowSize 65536; OnSetLocalWindowSize 65536].
Proof. vm_compute. reflexivity. Qed.

(** ** Setup *)

Lemma refusal_cases (windowSize : Q) (w : World) (x : Exception) :
  refusal windowSize w = Some x <->
  (x = ERR_HTTP2_INVALID_SESSION /\ session_destroyed w = true)
  \/ (x = ERR_OUT_OF_RANGE /\ session_destroyed w = false
      /\ valid_windowSize windowSize = false).
Proof.
  unfold refusal.
  destruct (session_destroyed w);
    [|destruct (valid_windowSize windowSize)]; split.
  - intros [= <-]. left. split; reflexivity.
  - intros [[-> _]|[_ [H _]]]; [reflexivity|discriminate].
  - discriminate.
  - intros [[_ H]|[_ [_ H]]]; discriminate.
  - intros [= <-]. right. repeat split; reflexivity.
  - intros [[_ H]|[-> _]]; [discriminate|reflexivity].
Qed.





(** ** The observer of window changes *)

Lemma In_tick_emits (o : AutoWindowSizeOptions) (w : World) (v : Q) :
  In (OnSetLocalWindowSize v) (tick_emits o w) ->
  tick_emits o w = [SetLocalWindowSize v; OnSetLocalWindowSize v]
  /\ refusal v w = None.
Proof.
  unfold tick_emits. cbn zeta.
  destruct (_ <=? 0); [intros []|].
  destruct (session_effectiveLocalWindowSize w); [|intros []].
  destruct (minRTT w); [|intros []].
  destruct (recentRTT w); [|intros []].
  destruct (shouldSet _ _ _ _ _); [|intros []].
  destruct (refusal _ w) eqn:Er; cbn [In].
  - intros [H|[]]. discriminate.
  - destruct (onSetLocalWindowSize o); cbn [In].
    + intros [H|[H|[]]]; [discriminate|]. injection H as <-.
      split; [reflexivity|exact Er].
    + intros [H|[]]. discriminate.
Qed.

Lemma refusal_None (windowSize : Q) (w : World) :
  refusal windowSize w = None <->
  session_destroyed w = false /\ valid_windowSize windowSize = true.
Proof.
  unfold refusal.
  destruct (session_destroyed w);
    [|destruct (valid_windowSize windowSize)]; split;
    try discriminate; try (intros [H1 H2]; discriminate).
  - intros _. split; reflexivity.
  - reflexivity.
Qed.

(** C10: a setup given an initialWindowSize of at least minWindowSize
    hands it to setLocalWindowSize at once and calls no observer for it:
    where the session takes the size (a live session, an integer from 0
    to 2^31 - 1) the only other call of setup is the first ping, and
    where it does not, setup throws with no other call made.  Afterwards
    onSetLocalWindowSize is called only by a tick, right after the
    session has taken the same value from that tick. *)
Theorem observer_called_only_by_tick (o : AutoWindowSizeOptions) :
  (forall w i,
      initialWindowSize o = Some i ->
      (minWindowSize_of o <= i)%Q ->
      exists c w' l,
        setupAutoWindowSize o w = (c, w')
        /\ trace w' = trace w ++ SetLocalWindowSize i :: l
        /\ ((session_destroyed w = false /\ valid_windowSize i = true
             /\ c = Normal tt /\ l = [SessionPing])
            \/ ((session_destroyed w = true \/ valid_windowSize i = false)
                /\ (exists x, c = Throw x) /\ l = [])))
  /\ (forall e w w',
        step o e w = Some w' ->
        exists l,
          trace w' = trace w ++ l
          /\ forall v,
               In (OnSetLocalWindowSize v) l ->
               l = [SetLocalWindowSize v; OnSetLocalWindowSize v]
               /\ session_destroyed w = false
               /\ valid_windowSize v = true
               /\ exists t,
                    e = TimerFires t
                    /\ interval_callback <$> (timers w !! t)
                       = Some BandwidthCalculation).
Proof.
  split.
  - intros w i Hi Hle.
    rewrite setupAutoWindowSize_cases, Hi.
    apply Qle_bool_iff in Hle. rewrite Hle.
    destruct (refusal i w) as [x|] eqn:Er.
    + exists (Throw x), (with_trace (trace w ++ [SetLocalWindowSize i]) w),
        [].
      split; [reflexivity|]. split; [reflexivity|]. right.
      split; [|split; [exists x; reflexivity|reflexivity]].
      apply refusal_cases in Er as [[_ Hd]|[_ [_ Hv]]];
        [left|right]; assumption.
    + apply refusal_None in Er as [Hd Hv].
      exists (Normal tt), (installed o w), [SessionPing].
      split; [reflexivity|].
      split; [rewrite installed_trace, Hi, Hd; reflexivity|].
      left. repeat split; assumption.
  - intros e w w' Hs. apply step_cases in Hs. destruct Hs as [_ ->].
    exists (emits o e w). split; [apply after_trace|].
    intros v Hin.
    destruct e as [t|[|d]|data| | |now|o']; cbn [emits] in *;
      try contradiction.
    + destruct (interval_callback <$> timers w !! t) as [[|]|] eqn:Ht.
      * apply In_tick_emits in Hin as [Hl Hr].
        apply refusal_None in Hr as [Hd Hv].
        split; [exact Hl|]. split; [exact Hd|]. split; [exact Hv|].
        exists t. split; [reflexivity|exact Ht].
      * destruct (session_destroyed w); cbn [In] in Hin;
          [contradiction|].
        destruct Hin as [H|[]]. discriminate.
      * contradiction.
    + destruct (onPingCallback o); cbn [In] in Hin; [|contradiction].
      destruct Hin as [H|[]]. discriminate.
Qed.

Lemma observer_called_only_by_tick_witness :
  exists c w' l,
    setupAutoWindowSize initial_1M (new_session 0 None) = (c, w')
    /\ trace w' = trace (new_session 0 None)
                  ++ SetLocalWindowSize 1048576 :: l
    /\ ((session_destroyed (new_session 0 None) = false
         /\ valid_windowSize 1048576 = true
         /\ c = Normal tt /\ l = [SessionPing])
        \/ ((session_destroyed (new_session 0 None) = true
             \/ valid_windowSize 1048576 = false)
            /\ (exists x, c = Throw x) /\ l = [])).
Proof.
  refine (proj1 (observer_called_only_by_tick initial_1M)
            (new_session 0 None) 1048576%Q _ _).
  - reflexivity.
  - vm_compute. discriminate.
Defined.

(** Setup with an initial window of 1 MB: on a live session it returns,
    on a destroyed one the call throws, and setup with it; a size with a
    fraction fares the same on a live session. *)
Example initial_window_of_1M :
  let gone := with_session_destroyed true (new_session 0 None) in
  let live := new_session 0 (Some 65536%Q) in
  fst (setupAutoWindowSize initial_1M live) = Normal tt
  /\ trace (exec (setupAutoWindowSize initial_1M) live)
     = [SetLocalWindowSize 1048576; SessionPing]
  /\ setupAutoWindowSize initial_1M gone
     = (Throw ERR_HTTP2_INVALID_SESSION,
        with_trace [SetLocalWindowSize 1048576] gone)
  /\ Qle_bool (minWindowSize_of fractional) (1048577 # 2) = true
  /\ fst (setupAutoWindowSize fractional live) = Throw ERR_OUT_OF_RANGE.
Proof. repeat split. Qed.

(** ** After the session has closed *)

Lemma cleared_lookup (c : option Timeout) (w : World) (t : Timeout)
    (i : Interval) :
  timers (cleared c w) !! t = Some i ->
  timers w !! t = Some i /\ c <> Some t.
Proof.
  destruct c as [h|]; cbn.
  - intros H. apply lookup_delete_Some in H. destruct H as [Hne H].
    split; [exact H|congruence].
  - intros H. split; [exact H|discriminate].
Qed.

Lemma rearmed_lookup (f d : Q) (w : World) (t : Timeout) (i : Interval) :
  timers (rearmed f d w) !! t = Some i ->
  interval_callback i = Ping \/ timers w !! t = Some i.
Proof.
  unfold rearmed. cbn zeta. cbn. intros H.
  apply lookup_insert_Some in H. destruct H as [[_ <-]|[_ H]].
  - left. reflexivity.
  - right. apply cleared_lookup in H. apply H.
Qed.

Lemma installed_tracked (o : AutoWindowSizeOptions) (w : World) :
  no_tick_interval w -> ticks_tracked (installed o w).
Proof.
  intros Hno t i. unfold installed. cbn zeta. cbn.
  set (w3 := if session_destroyed _ then _ else _).
  intros H Hcb. apply lookup_insert_Some in H.
  destruct H as [[<- _]|[_ H]]; [reflexivity|].
  exfalso. change (timers (rearmed (pingIntervalFactor_of o)
    (or_default INITIAL_PING_DURATION_REFERENCE_DEFAULT
       (initialPingDurationReference o)) w3) !! t = Some i) in H.
  apply rearmed_lookup in H. destruct H as [H|H]; [congruence|].
  assert (Ht : timers w3 = timers w).
  { subst w3. destruct (initialWindowSize o), (session_destroyed w) eqn:Hd;
      cbn; rewrite ?Hd; reflexivity. }
  rewrite Ht in H. apply Hno in H. congruence.
Qed.

Lemma after_destroyed (o : AutoWindowSizeOptions) (e : Event) (w : World) :
  session_destroyed w = true -> session_destroyed (after o e w) = true.
Proof.
  intros Hd.
  destruct e as [t|[|d]|[buffer|]| | |now|o']; cbn [after];
    try exact Hd; try reflexivity.
  - destruct (interval_callback <$> timers w !! t) as [[|]|]; [| |exact Hd].
    + rewrite tick_exec. exact Hd.
    + rewrite Hd.
      destruct (cleared_fields (sessionPing_timer w) w) as (_ & _ & H & _).
      rewrite H. exact Hd.
  - destruct (rearmed_fields (pingIntervalFactor_of o) d
                (sampled o d (answered w))) as (_ & _ & H & _).
    rewrite H. exact Hd.
  - cbn zeta.
    set (w1 := with_session_closed true w).
    set (w2 := cleared (sessionPing_timer w1) w1).
    destruct (cleared_fields (autoWindowSize_timer w2) w2) as (_ & _ & H & _).
    destruct (cleared_fields (sessionPing_timer w1) w1) as (_ & _ & H' & _).
    rewrite H. fold w2 in H'. rewrite H'. exact Hd.
Qed.

(** The intervals an event leaves active were active before, and held by
    the same [timer] of the controller, or they run [ping]. *)
Lemma after_lookup (o : AutoWindowSizeOptions) (e : Event) (w : World)
    (t : Timeout) (i : Interval) :
  timers (after o e w) !! t = Some i ->
  interval_callback i = Ping
  \/ (timers w !! t = Some i
      /\ autoWindowSize_timer (after o e w) = autoWindowSize_timer w
      /\ (e = SessionCloses -> autoWindowSize_timer w <> Some t)).
Proof.
  destruct e as [t'|[|d]|[buffer|]| | |now|o']; cbn [after];
    try (intros H; right; split; [exact H|split; [reflexivity|discriminate]]).
  - destruct (interval_callback <$> timers w !! t') as [[|]|].
    + rewrite tick_exec. intros H. right.
      split; [exact H|split; [reflexivity|discriminate]].
    + destruct (session_destroyed w).
      * intros H. apply cleared_lookup in H. right.
        split; [apply H|]. split; [|discriminate].
        apply (cleared_fields (sessionPing_timer w) w).
      * intros H. right.
        split; [exact H|split; [reflexivity|discriminate]].
    + intros H. right.
      split; [exact H|split; [reflexivity|discriminate]].
  - intros H. apply rearmed_lookup in H. destruct H as [H|H]; [left; exact H|].
    right. split; [exact H|]. split; [|discriminate].
    apply (rearmed_fields (pingIntervalFactor_of o) d
             (sampled o d (answered w))).
  - cbn zeta.
    set (w1 := with_session_closed true w).
    set (w2 := cleared (sessionPing_timer w1) w1).
    intros H. apply cleared_lookup in H. destruct H as [H Hne].
    apply cleared_lookup in H. destruct H as [H _].
    assert (Ha : autoWindowSize_timer w2 = autoWindowSize_timer w).
    { apply (cleared_fields (sessionPing_timer w1) w1). }
    right. split; [exact H|]. split.
    + destruct (cleared_fields (autoWindowSize_timer w2) w2)
        as (_ & _ & _ & H4 & _).
      rewrite H4. exact Ha.
    + intros _. rewrite <- Ha. exact Hne.
Qed.

Lemma after_tracked (o : AutoWindowSizeOptions) (e : Event) (w : World) :
  ticks_tracked w -> ticks_tracked (after o e w).
Proof.
  intros Hw t i Hl Hcb.
  apply after_lookup in Hl. destruct Hl as [Hl|(Hl & Ha & _)]; [congruence|].
  rewrite Ha. exact (Hw t i Hl Hcb).
Qed.

Lemma run_tracked (o : AutoWindowSizeOptions) (es : list Event)
    (w w' : World) :
  ticks_tracked w -> run o es w = Some w' -> ticks_tracked w'.
Proof.
  revert w. induction es as [|e es IH]; intros w Hw; cbn [run].
  - intros [= <-]. exact Hw.
  - destruct (step o e w) as [w1|] eqn:Hs; [|discriminate].
    apply step_cases in Hs. destruct Hs as [_ ->].
    apply IH. apply after_tracked. exact Hw.
Qed.

Lemma close_terminated (o : AutoWindowSizeOptions) (w w' : World) :
  ticks_tracked w -> step o SessionCloses w = Some w' -> terminated w'.
Proof.
  intros Hw Hs. apply step_cases in Hs. destruct Hs as [Hen ->].
  cbn [enabled] in Hen. apply andb_true_iff in Hen. destruct Hen as [Hd _].
  split; [apply after_destroyed; exact Hd|].
  intros t i Hl. apply after_lookup in Hl.
  destruct Hl as [Hl|(Hl & _ & Hne)]; [exact Hl|].
  destruct (interval_callback i) eqn:Hcb; [|reflexivity].
  exfalso. apply (Hne eq_refl). exact (Hw t i Hl Hcb).
Qed.

Lemma after_terminated (o : AutoWindowSizeOptions) (e : Event) (w : World) :
  terminated w ->
  terminated (after o e w) /\ Forall quiet (emits o e w).
Proof.
  intros [Hd Hno]. split; [split|].
  - apply after_destroyed. exact Hd.
  - intros t i Hl. apply after_lookup in Hl.
    destruct Hl as [Hl|(Hl & _)]; [exact Hl|]. exact (Hno t i Hl).
  - destruct e as [t|[|d]|data| | |now|o']; cbn [emits];
      try constructor.
    + destruct (timers w !! t) as [i|] eqn:Hl; cbn; [|constructor].
      rewrite (Hno t i Hl), Hd. constructor.
    + destruct (onPingCallback o); [|constructor].
      constructor; [split; reflexivity|constructor].
Qed.

(** * Further properties *)

(** ** Counting bytes *)

Lemma with_received_id (w : World) (n : Z) :
  n = receivedSinceLastBandwidthCalculation w ->
  with_receivedSinceLastBandwidthCalculation n w = w.
Proof. intros ->. destruct w. reflexivity. Qed.

(** A run of pushes alone, as a world. *)
Lemma pushes_add_lengths_run
    (o : AutoWindowSizeOptions) (datas : list (option (list byte)))
    (w : World) :
  run o (map StreamPush datas) w
  = Some (with_receivedSinceLastBandwidthCalculation
            (receivedSinceLastBandwidthCalculation w + total_length datas)
            w).
Proof.
  revert w. induction datas as [|[buffer|] datas IH]; intros w;
    cbn [map run total_length].
  - f_equal. symmetry. apply with_received_id. lia.
  - unfold step. cbn [enabled]. unfold exec. rewrite handler_cases.
    cbn [snd after]. rewrite IH. f_equal.
    unfold with_receivedSinceLastBandwidthCalculation.
    cbn [receivedSinceLastBandwidthCalculation timers nextTimeout Date_now
         session_destroyed session_closed session_effectiveLocalWindowSize
         session_outstandingPings recentRTT minRTT bandwidthCalculatedAt
         autoWindowSize_timer sessionPing_timer trace].
    f_equal. lia.
  - unfold step. cbn [enabled]. unfold exec. rewrite handler_cases.
    cbn [snd after]. apply IH.
Qed.

Lemma cleared_received (c : option Timeout) (w : World) :
  receivedSinceLastBandwidthCalculation (cleared c w)
  = receivedSinceLastBandwidthCalculation w.
Proof. destruct c; reflexivity. Qed.

Lemma rearmed_received (f d : Q) (w : World) :
  receivedSinceLastBandwidthCalculation (rearmed f d w)
  = receivedSinceLastBandwidthCalculation w.
Proof. unfold rearmed. destruct (sessionPing_timer w); reflexivity. Qed.

(** X1: as long as no interval fires, the counter grows by exactly the
    lengths of the buffers pushed, by nothing for [null]; answers to
    pings, the clock, and the destruction and closing of the session
    leave it alone. *)
Theorem counter_adds_pushed_lengths
    (o : AutoWindowSizeOptions) (es : list Event) (w w' : World) :
  no_timer_fires es = true ->
  run o es w = Some w' ->
  receivedSinceLastBandwidthCalculation w'
  = receivedSinceLastBandwidthCalculation w + pushed es.
Proof.
  revert w. induction es as [|e es IH]; intros w Hno; cbn [run].
  - intros [= <-]. cbn [pushed]. lia.
  - destruct (step o e w) as [w1|] eqn:Hs; [|discriminate].
    apply step_cases in Hs. destruct Hs as [_ ->].
    intros Hrun.
    destruct e as [t|[|d]|[buffer|]| | |now|o'];
      cbn [no_timer_fires] in Hno; try discriminate;
      rewrite (IH _ Hno Hrun); cbn [after pushed];
      try reflexivity.
    + rewrite rearmed_received. reflexivity.
    + cbn [receivedSinceLastBandwidthCalculation
           with_receivedSinceLastBandwidthCalculation]. lia.
    + cbv zeta. rewrite !cleared_received. reflexivity.
Qed.

Lemma counter_adds_pushed_lengths_witness :
  let w := observed_session 65536 in
  receivedSinceLastBandwidthCalculation (default w (run observed arrivals w))
  = receivedSinceLastBandwidthCalculation w + pushed arrivals.
Proof.
  cbv zeta.
  apply (counter_adds_pushed_lengths observed arrivals
           (observed_session 65536)).
  - reflexivity.
  - vm_compute. reflexivity.
Defined.

(** ** Ticks *)

(** X2: every tick, whichever way it returns, leaves the counter at zero
    and the timestamp at the clock, so a tick that fires again before the
    clock has moved makes no call. *)
Theorem tick_resets_then_idles (o : AutoWindowSizeOptions) (w : World) :
  let w1 := exec (bandwidthCalculation o) w in
  receivedSinceLastBandwidthCalculation w1 = 0
  /\ bandwidthCalculatedAt w1 = Date_now w
  /\ trace (exec (bandwidthCalculation o) w1) = trace w1.
Proof.
  cbv zeta. rewrite !tick_exec. split; [reflexivity|].
  split; [reflexivity|].
  set (w1 := with_trace _ (tick_reset w)).
  assert (He : tick_emits o w1 = []).
  { unfold tick_emits. cbv zeta.
    replace (Date_now w1 - bandwidthCalculatedAt w1) with 0;
      [reflexivity|].
    subst w1. cbn [Date_now bandwidthCalculatedAt with_trace tick_reset
                   with_bandwidthCalculatedAt
                   with_receivedSinceLastBandwidthCalculation]. lia. }
  rewrite He. cbn [trace with_trace]. apply app_nil_r.
Qed.

Lemma Math_max_floor (x : Q) :
  exists z, Math_max (Math_ceil x) MIN_WINDOW_SIZE_DEFAULT = inject_Z z
            /\ 65536 <= z.
Proof.
  unfold Math_max, Math_ceil.
  change MIN_WINDOW_SIZE_DEFAULT with (inject_Z 65536).
  destruct (Qlt_bool _ (inject_Z 65536)) eqn:E.
  - exists 65536. split; [reflexivity|lia].
  - exists (Qceiling x). split; [reflexivity|].
    apply Qlt_bool_false_iff in E. rewrite <- Zle_Qle in E. exact E.
Qed.

Lemma tick_applies_integer_of_emits (o : AutoWindowSizeOptions)
    (w : World) (v : Q) :
  In (SetLocalWindowSize v) (tick_emits o w) ->
  exists z, v = inject_Z z /\ 65536 <= z.
Proof.
  unfold tick_emits. cbv zeta.
  destruct (_ <=? 0); [intros []|].
  destruct (session_effectiveLocalWindowSize w) as [effective|];
    [|intros []].
  destruct (minRTT w) as [m|]; [|intros []].
  destruct (recentRTT w) as [r|]; [|intros []].
  destruct (shouldSet _ _ _ _ _); [|intros []].
  intros Hin.
  assert (Hv : v = windowSize_of (windowSizeFactor_of o)
                     (receivedSinceLastBandwidthCalculation w)
                     (Date_now w - bandwidthCalculatedAt w) m).
  { destruct Hin as [H|Hin]; [injection H as <-; reflexivity|].
    destruct (refusal _ w); [destruct Hin|].
    destruct (onSetLocalWindowSize o); [|destruct Hin].
    destruct Hin as [H|[]]. discriminate. }
  rewrite Hv. unfold windowSize_of. cbv zeta. apply Math_max_floor.
Qed.



Lemma Math_max_le_compat (a b c : Q) :
  (a <= b)%Q -> (Math_max a c <= Math_max b c)%Q.
Proof.
  intros Hab. unfold Math_max.
  destruct (Qlt_bool a c) eqn:Ea; destruct (Qlt_bool b c) eqn:Eb.
  - apply Qle_refl.
  - apply Qlt_bool_false_iff in Eb. exact Eb.
  - apply Qlt_bool_false_iff in Ea. apply Qlt_bool_iff in Eb.
    exfalso. apply (Qlt_irrefl c).
    eapply Qle_lt_trans; [exact Ea|].
    eapply Qle_lt_trans; [exact Hab|exact Eb].
  - exact Hab.
Qed.

Lemma scaled_product_le (f : Q) (r1 r2 d : Z) (m : Q) :
  r1 <= r2 -> 0 < d -> (0 <= m)%Q -> (0 <= f)%Q ->
  (scaled_product f r1 d m <= scaled_product f r2 d m)%Q.
Proof.
  intros Hr Hd Hm Hf. unfold scaled_product.
  apply Qmult_le_compat_r; [|exact Hf].
  apply Qmult_le_compat_r; [|exact Hm].
  unfold Qdiv. apply Qmult_le_compat_r.
  - rewrite <- Zle_Qle. exact Hr.
  - apply Qinv_le_0_compat. change 0%Q with (inject_Z 0).
    rewrite <- Zle_Qle. lia.
Qed.

(** X4: with a positive duration and no negative minRTT or factor, more
    bytes received never give a smaller window size. *)
Theorem windowSize_monotone_in_bytes (f : Q) (r1 r2 d : Z) (m : Q) :
  r1 <= r2 -> 0 < d -> (0 <= m)%Q -> (0 <= f)%Q ->
  (windowSize_of f r1 d m <= windowSize_of f r2 d m)%Q.
Proof.
  intros Hr Hd Hm Hf.
  pose proof (scaled_product_le f r1 r2 d m Hr Hd Hm Hf) as Hp.
  unfold scaled_product in Hp. unfold windowSize_of. cbv zeta.
  apply Math_max_le_compat. unfold Math_ceil.
  rewrite <- Zle_Qle. apply Qceiling_resp_le. exact Hp.
Qed.

Lemma windowSize_monotone_in_bytes_witness :
  (windowSize_of 2 600000 200 50 <= windowSize_of 2 1000000 200 50)%Q.
Proof.
  apply windowSize_monotone_in_bytes.
  - lia.
  - lia.
  - vm_compute. discriminate.
  - vm_compute. discriminate.
Defined.

(** ** The samples together *)

Lemma last_In (ds : list Q) (x : Q) : ds <> [] -> In (List.last ds x) ds.
Proof.
  induction ds as [|d ds IH]; [congruence|]. intros _.
  destruct ds as [|d' ds]; [left; reflexivity|].
  right. apply IH. discriminate.
Qed.

(** X6: after setup the two samples are unset together or set together,
    and once set minRTT does not exceed recentRTT. *)
Theorem samples_set_together
    (o : AutoWindowSizeOptions) (w00 w0 : World) (es : list Event)
    (w : World) :
  setupAutoWindowSize o w00 = (Normal tt, w0) ->
  run o es w0 = Some w ->
  (recentRTT w = None /\ minRTT w = None)
  \/ (exists r m, recentRTT w = Some r /\ minRTT w = Some m /\ (m <= r)%Q).
Proof.
  intros Hsetup Hrun. apply setup_normal in Hsetup. subst w0.
  destruct (run_rtt _ _ _ _ Hrun) as [Hm Hr].
  rewrite installed_minRTT in Hm. rewrite installed_recentRTT in Hr.
  destruct (ping_durations es) as [|d ds] eqn:Hds.
  - left. split; assumption.
  - right. assert (Hne : d :: ds <> []) by discriminate.
    destruct (fold_observe_None _ Hne) as (m & Hf & _ & Hall).
    exists (List.last (d :: ds) 0%Q), m.
    split; [rewrite Hr; apply latest_last; exact Hne|].
    split; [congruence|].
    apply Hall. apply last_In. exact Hne.
Qed.

Lemma samples_set_together_witness :
  (recentRTT after_three_pings = None /\ minRTT after_three_pings = None)
  \/ (exists r m,
        recentRTT after_three_pings = Some r
        /\ minRTT after_three_pings = Some m /\ (m <= r)%Q).
Proof.
  apply (samples_set_together observed (new_session 0 (Some 65536%Q))
           (observed_session 65536) three_pings).
  - vm_compute. reflexivity.
  - vm_compute. reflexivity.
Defined.

(** ** A destroyed session *)

Lemma tick_emits_no_ping (o : AutoWindowSizeOptions) (w : World) :
  Forall (fun x => is_SessionPing x = false) (tick_emits o w).
Proof.
  unfold tick_emits. cbv zeta.
  destruct (_ <=? 0); [constructor|].
  destruct (session_effectiveLocalWindowSize w); [|constructor].
  destruct (minRTT w); [|constructor].
  destruct (recentRTT w); [|constructor].
  destruct (shouldSet _ _ _ _ _); [|constructor].
  constructor; [reflexivity|].
  destruct (refusal _ w); [constructor|].
  destruct (onSetLocalWindowSize o); repeat constructor.
Qed.

(** X7: once [session.destroyed] is true the controller never calls
    [session.ping] again, whether or not ['close'] has been emitted. *)
Theorem destroyed_session_never_pinged
    (o : AutoWindowSizeOptions) (es : list Event) (w w' : World) :
  session_destroyed w = true ->
  run o es w = Some w' ->
  session_destroyed w' = true
  /\ exists l,
       trace w' = trace w ++ l
       /\ Forall (fun x => is_SessionPing x = false) l.
Proof.
  revert w. induction es as [|e es IH]; intros w Hd; cbn [run].
  - intros [= <-]. split; [exact Hd|].
    exists []. split; [rewrite app_nil_r; reflexivity|constructor].
  - destruct (step o e w) as [w1|] eqn:Hs; [|discriminate].
    apply step_cases in Hs. destruct Hs as [_ ->].
    intros Hrun.
    destruct (IH _ (after_destroyed o e w Hd) Hrun) as (Hd' & l & Ht & Hl).
    split; [exact Hd'|].
    exists (emits o e w ++ l). split.
    + rewrite Ht, after_trace, app_assoc. reflexivity.
    + apply Forall_app. split; [|exact Hl].
      destruct e as [t|[|d]|data| | |now|o']; cbn [emits];
        try constructor.
      * destruct (interval_callback <$> timers w !! t) as [[|]|];
          [apply tick_emits_no_ping|rewrite Hd; constructor|constructor].
      * destruct (onPingCallback o); repeat constructor.
Qed.

Lemma destroyed_session_never_pinged_witness :
  let w := with_session_destroyed true (observed_session 65536) in
  let w' := default w (run observed destroyed_midway w) in
  session_destroyed w' = true
  /\ exists l,
       trace w' = trace w ++ l
       /\ Forall (fun x => is_SessionPing x = false) l.
Proof.
  cbv zeta.
  apply (destroyed_session_never_pinged observed destroyed_midway).
  - reflexivity.
  - vm_compute. reflexivity.
Defined.

Lemma cleared_effective (c : option Timeout) (w : World) :
  session_effectiveLocalWindowSize (cleared c w)
  = session_effectiveLocalWindowSize w.
Proof. destruct c; reflexivity. Qed.

Lemma rearmed_effective (f d : Q) (w : World) :
  session_effectiveLocalWindowSize (rearmed f d w)
  = session_effectiveLocalWindowSize w.
Proof. unfold rearmed. destruct (sessionPing_timer w); reflexivity. Qed.

(** Only the session changes the window size it reports. *)
Lemma after_effective (o : AutoWindowSizeOptions) (e : Event) (w : World) :
  session_effectiveLocalWindowSize (after o e w)
  = match e with
    | SessionDestroyed => None
    | SessionReports o' => o'
    | _ => session_effectiveLocalWindowSize w
    end.
Proof.
  destruct e as [t|[|d]|[buffer|]| | |now|o']; cbn [after];
    try reflexivity.
  - destruct (interval_callback <$> timers w !! t) as [[|]|];
      [rewrite tick_exec; reflexivity| |reflexivity].
    destruct (session_destroyed w); [apply cleared_effective|reflexivity].
  - rewrite rearmed_effective. reflexivity.
  - cbn zeta. rewrite !cleared_effective. reflexivity.
Qed.

(** On a destroyed session, whose [state] is empty, no event makes the
    controller call anything, and no callback throws. *)
Lemma after_gone (o : AutoWindowSizeOptions) (e : Event) (w : World) :
  session_destroyed w = true ->
  session_effectiveLocalWindowSize w = None ->
  enabled e w = true ->
  emits o e w = []
  /\ session_effectiveLocalWindowSize (after o e w) = None
  /\ ping_durations [e] = [].
Proof.
  intros Hd He Hen.
  assert (Ht : tick_emits o w = []).
  { unfold tick_emits. cbv zeta. rewrite He.
    destruct (_ <=? 0); reflexivity. }
  rewrite after_effective.
  destruct e as [t|[|d]|[buffer|]| | |now|[v|]]; cbn [emits ping_durations];
    cbn [enabled] in Hen; rewrite ?Hd in Hen;
    rewrite ?andb_false_r in Hen; try discriminate;
    try (repeat split; (reflexivity || exact He)).
  destruct (interval_callback <$> timers w !! t) as [[|]|];
    [rewrite Ht|rewrite Hd|];
    repeat split; (reflexivity || exact He).
Qed.

Lemma gone_uncaught (o : AutoWindowSizeOptions) (e : Event) (w : World) :
  session_effectiveLocalWindowSize w = None -> uncaught o e w = None.
Proof.
  intros He. rewrite uncaught_cases.
  destruct e as [t|result|data| | |now|o']; try reflexivity.
  destruct (interval_callback <$> timers w !! t) as [[|]|];
    try reflexivity.
  unfold tick_throws. cbv zeta. rewrite He.
  destruct (_ <=? 0); reflexivity.
Qed.

Lemma run_gone (o : AutoWindowSizeOptions) (es : list Event)
    (w w' : World) :
  session_destroyed w = true ->
  session_effectiveLocalWindowSize w = None ->
  run o es w = Some w' ->
  trace w' = trace w
  /\ session_destroyed w' = true
  /\ session_effectiveLocalWindowSize w' = None
  /\ recentRTT w' = recentRTT w
  /\ minRTT w' = minRTT w.
Proof.
  revert w. induction es as [|e es IH]; intros w Hd He; cbn [run].
  - intros [= <-]. repeat split; assumption.
  - destruct (step o e w) as [w1|] eqn:Hs; [|discriminate].
    apply step_cases in Hs. destruct Hs as [Hen ->]. intros Hrun.
    destruct (after_gone o e w Hd He Hen) as (Hem & He' & Hp).
    destruct (IH _ (after_destroyed o e w Hd) He' Hrun)
      as (Ht & Hd' & He'' & Hr & Hm).
    pose proof (after_rtt o e w) as Ha.
    assert (Hrtt : recentRTT (after o e w) = recentRTT w
                   /\ minRTT (after o e w) = minRTT w).
    { destruct e as [t|[|d]|data| | |now|o']; try exact Ha.
      discriminate Hp. }
    destruct Hrtt as [Hr1 Hm1].
    rewrite Ht, Hr, Hm, after_trace, Hem, app_nil_r, Hr1, Hm1.
    repeat split; assumption.
Qed.

(** X8: from the moment the session is destroyed the controller leaves
    it and the observers alone, with or without a ['close'] event: the
    intervals may fire, outstanding pings come back cancelled and pushes
    may still arrive, but no call is made, the two samples stay as they
    were, and no callback throws. *)
Theorem destroyed_session_left_alone
    (o : AutoWindowSizeOptions) (es : list Event) (w w' : World) :
  run o (SessionDestroyed :: es) w = Some w' ->
  trace w' = trace w
  /\ recentRTT w' = recentRTT w
  /\ minRTT w' = minRTT w
  /\ session_destroyed w' = true
  /\ forall e, uncaught o e w' = None.
Proof.
  cbn [run]. destruct (step o SessionDestroyed w) as [w1|] eqn:Hs;
    [|discriminate].
  apply step_cases in Hs. destruct Hs as [_ ->]. intros Hrun.
  destruct (run_gone o es (after o SessionDestroyed w) w'
              eq_refl eq_refl Hrun)
    as (Ht & Hd & He & Hr & Hm).
  rewrite Ht, Hr, Hm. repeat split; try assumption.
  intros e. apply gone_uncaught. exact He.
Qed.

Lemma destroyed_session_left_alone_witness :
  let w := third_ping_outstanding in
  let w' := default w (run observed (SessionDestroyed :: cancelled) w) in
  trace w' = trace w
  /\ recentRTT w' = recentRTT w
  /\ minRTT w' = minRTT w
  /\ session_destroyed w' = true
  /\ forall e, uncaught observed e w' = None.
Proof.
  cbv zeta.
  apply (destroyed_session_left_alone observed cancelled).
  vm_compute. reflexivity.
Defined.

(** The tick of that run comes 200 ms after setup, with both samples
    set; on the live session it would shrink the window. *)
Example cancelled_tick_on_live_session :
  trace <$> run observed cancelled third_ping_outstanding
  = Some [SessionPing; OnPingCallback 50; SessionPing;
          OnPingCallback 300; SessionPing;
          SetLocalWindowSize 65536; OnSetLocalWindowSize 65536;
          SessionPing].
Proof. vm_compute. reflexivity. Qed.

(** ** What a callback lets escape *)

Lemma valid_windowSize_integer (z : Z) :
  valid_windowSize (inject_Z z) = (0 <=? z) && (z <=? 2147483647).
Proof.
  unfold valid_windowSize. rewrite Qfloor_Z.
  rewrite (proj2 (Qeq_bool_iff _ _) (Qeq_refl _)).
  unfold Qle_bool. cbn [Qnum Qden inject_Z andb].
  rewrite !Z.mul_1_r. reflexivity.
Qed.

Lemma after_destroyed_eq (o : AutoWindowSizeOptions) (e : Event)
    (w : World) :
  session_destroyed (after o e w)
  = match e with
    | SessionDestroyed => true
    | _ => session_destroyed w
    end.
Proof.
  destruct e as [t|[|d]|[buffer|]| | |now|o']; cbn [after];
    try reflexivity.
  - destruct (interval_callback <$> timers w !! t) as [[|]|];
      [rewrite tick_exec; reflexivity| |reflexivity].
    destruct (session_destroyed w) eqn:Hd; [|exact Hd].
    destruct (cleared_fields (sessionPing_timer w) w) as (_ & _ & H & _).
    rewrite H. exact Hd.
  - destruct (rearmed_fields (pingIntervalFactor_of o) d
                (sampled o d (answered w))) as (_ & _ & H & _).
    rewrite H. reflexivity.
  - cbn zeta.
    set (w1 := with_session_closed true w).
    set (w2 := cleared (sessionPing_timer w1) w1).
    destruct (cleared_fields (autoWindowSize_timer w2) w2) as (_ & _ & H & _).
    destruct (cleared_fields (sessionPing_timer w1) w1) as (_ & _ & H' & _).
    rewrite H. fold w2 in H'. rewrite H'. reflexivity.
Qed.


Lemma step_state_empty (o : AutoWindowSizeOptions) (e : Event)
    (w w' : World) :
  state_empty_once_destroyed w ->
  step o e w = Some w' ->
  state_empty_once_destroyed w'.
Proof.
  unfold state_empty_once_destroyed. intros Hw Hs.
  apply step_cases in Hs. destruct Hs as [Hen ->].
  rewrite after_destroyed_eq, after_effective.
  destruct e as [t|[|d]|[buffer|]| | |now|[v|]]; try exact Hw;
    try reflexivity.
  intros Hd. cbn [enabled] in Hen. rewrite Hd in Hen. discriminate.
Qed.


(** In exact arithmetic a size the session refuses from a tick is an
    integer beyond 2^31 - 1. *)
Lemma refused_size_exceeds_int32 (o : AutoWindowSizeOptions) (w : World)
    (v : Q) :
  In (SetLocalWindowSize v) (tick_emits o w) ->
  valid_windowSize v = false ->
  exists z, v = inject_Z z /\ 2147483647 < z.
Proof.
  intros Hin Hv.
  destruct (tick_applies_integer_of_emits o w v Hin) as (z & -> & Hz).
  exists z. split; [reflexivity|].
  rewrite valid_windowSize_integer in Hv. lia.
Qed.



(** That tick asks for 10240000000 bytes. *)
Example flooded_tick :
  tick_emits steep flooded = [SetLocalWindowSize 10240000000]
  /\ uncaught steep (TimerFires 1%nat) flooded = Some ERR_OUT_OF_RANGE.
Proof. split; vm_compute; reflexivity. Qed.

(** ** What the observers see *)

Lemma ping_reports_app (l1 l2 : list Effect) :
  ping_reports (l1 ++ l2) = ping_reports l1 ++ ping_reports l2.
Proof.
  induction l1 as [|[v| |v|d] l1 IH]; cbn [app ping_reports];
    rewrite ?IH; reflexivity.
Qed.

(** A tick calls no ping observer. *)
Lemma tick_emits_readings (o : AutoWindowSizeOptions) (w : World) :
  ping_reports (tick_emits o w) = [].
Proof.
  unfold tick_emits. cbv zeta.
  destruct (_ <=? 0); [reflexivity|].
  destruct (session_effectiveLocalWindowSize w); [|reflexivity].
  destruct (minRTT w); [|reflexivity].
  destruct (recentRTT w); [|reflexivity].
  destruct (shouldSet _ _ _ _ _); [|reflexivity].
  destruct (refusal _ w); [reflexivity|].
  destruct (onSetLocalWindowSize o); reflexivity.
Qed.

Lemma emits_readings (o : AutoWindowSizeOptions) (e : Event) (w : World) :
  ping_reports (emits o e w)
  = (if onPingCallback o then ping_durations [e] else []).
Proof.
  destruct e as [t|[|d]|data| | |now|o']; cbn [emits ping_durations];
    try (destruct (onPingCallback o); reflexivity).
  destruct (interval_callback <$> timers w !! t) as [[|]|].
  - rewrite tick_emits_readings. destruct (onPingCallback o); reflexivity.
  - destruct (session_destroyed w), (onPingCallback o); reflexivity.
  - destruct (onPingCallback o); reflexivity.
Qed.

Lemma ping_durations_cons (e : Event) (es : list Event) :
  ping_durations (e :: es) = ping_durations [e] ++ ping_durations es.
Proof. destruct e as [t|[|d]|data| | |now|o']; reflexivity. Qed.

(** X9: an [onPingCallback] that is supplied is called once for every
    ping that completes without error, with its duration and in order,
    and for nothing else. *)
Theorem ping_observer_sees_each_duration
    (o : AutoWindowSizeOptions) (es : list Event) (w w' : World) :
  run o es w = Some w' ->
  ping_reports (trace w')
  = ping_reports (trace w)
    ++ (if onPingCallback o then ping_durations es else []).
Proof.
  revert w. induction es as [|e es IH]; intros w; cbn [run].
  - intros [= <-]. destruct (onPingCallback o); cbn [ping_durations];
      rewrite app_nil_r; reflexivity.
  - destruct (step o e w) as [w1|] eqn:Hs; [|discriminate].
    apply step_cases in Hs. destruct Hs as [_ ->].
    intros Hrun. rewrite (IH _ Hrun), after_trace, ping_reports_app.
    rewrite (emits_readings o e w), (ping_durations_cons e es).
    rewrite <- app_assoc.
    destruct (onPingCallback o); reflexivity.
Qed.

Lemma ping_observer_sees_each_duration_witness :
  ping_reports (trace after_three_pings) = [70; 50; 60]%Q.
Proof.
  apply (ping_observer_sees_each_duration observed three_pings
           (observed_session 65536) after_three_pings).
  vm_compute. reflexivity.
Defined.

Lemma applied_sizes_app (l1 l2 : list Effect) :
  applied_sizes (l1 ++ l2) = applied_sizes l1 ++ applied_sizes l2.
Proof.
  induction l1 as [|[v| |v|d] l1 IH]; cbn [app applied_sizes];
    rewrite ?IH; reflexivity.
Qed.

Lemma reported_sizes_app (l1 l2 : list Effect) :
  reported_sizes (l1 ++ l2) = reported_sizes l1 ++ reported_sizes l2.
Proof.
  induction l1 as [|[v| |v|d] l1 IH]; cbn [app reported_sizes];
    rewrite ?IH; reflexivity.
Qed.

(** What one tick shows of itself: the size it handed to the session, if
    any, and the same size reported when the session took it and the
    observer is there. *)
Lemma tick_emits_sizes (o : AutoWindowSizeOptions) (w : World) :
  state_empty_once_destroyed w ->
  reported_sizes (tick_emits o w)
  = if onSetLocalWindowSize o
    then List.filter valid_windowSize (applied_sizes (tick_emits o w))
    else [].
Proof.
  intros Hw. unfold tick_emits, refusal. cbv zeta.
  destruct (_ <=? 0); [destruct (onSetLocalWindowSize o); reflexivity|].
  destruct (session_destroyed w) eqn:Hd.
  { rewrite (Hw Hd). destruct (onSetLocalWindowSize o); reflexivity. }
  destruct (session_effectiveLocalWindowSize w);
    [|destruct (onSetLocalWindowSize o); reflexivity].
  destruct (minRTT w);
    [|destruct (onSetLocalWindowSize o); reflexivity].
  destruct (recentRTT w);
    [|destruct (onSetLocalWindowSize o); reflexivity].
  destruct (shouldSet _ _ _ _ _);
    [|destruct (onSetLocalWindowSize o); reflexivity].
  cbn [applied_sizes List.filter].
  destruct (valid_windowSize _); destruct (onSetLocalWindowSize o);
    reflexivity.
Qed.

Lemma emits_sizes (o : AutoWindowSizeOptions) (e : Event) (w : World) :
  state_empty_once_destroyed w ->
  reported_sizes (emits o e w)
  = if onSetLocalWindowSize o
    then List.filter valid_windowSize (applied_sizes (emits o e w))
    else [].
Proof.
  intros Hw.
  destruct e as [t|[|d]|data| | |now|o']; cbn [emits];
    try (destruct (onSetLocalWindowSize o); reflexivity).
  - destruct (interval_callback <$> timers w !! t) as [[|]|].
    + apply tick_emits_sizes. exact Hw.
    + destruct (session_destroyed w), (onSetLocalWindowSize o);
        reflexivity.
    + destruct (onSetLocalWindowSize o); reflexivity.
  - destruct (onPingCallback o), (onSetLocalWindowSize o); reflexivity.
Qed.

(** X10: over any run of events, an [onSetLocalWindowSize] that is
    supplied is called with exactly those sizes handed to
    setLocalWindowSize that the session took, in the same order: a size
    the session refuses is not reported.  An observer that is not
    supplied is never called. *)
Theorem window_observer_mirrors_ticks
    (o : AutoWindowSizeOptions) (es : list Event) (w w' : World) :
  state_empty_once_destroyed w ->
  run o es w = Some w' ->
  exists sizes,
    applied_sizes (trace w') = applied_sizes (trace w) ++ sizes
    /\ reported_sizes (trace w')
       = reported_sizes (trace w)
         ++ (if onSetLocalWindowSize o
             then List.filter valid_windowSize sizes else []).
Proof.
  revert w. induction es as [|e es IH]; intros w Hw; cbn [run].
  - intros [= <-]. exists []. destruct (onSetLocalWindowSize o);
      rewrite !app_nil_r; split; reflexivity.
  - destruct (step o e w) as [w1|] eqn:Hs; [|discriminate].
    pose proof (step_state_empty o e w w1 Hw Hs) as Hw1.
    apply step_cases in Hs. destruct Hs as [_ ->].
    intros Hrun. destruct (IH _ Hw1 Hrun) as (sizes & Ha & Hr).
    exists (applied_sizes (emits o e w) ++ sizes).
    rewrite Ha, Hr, after_trace, applied_sizes_app, reported_sizes_app.
    rewrite (emits_sizes o e w Hw), List.filter_app, <- !app_assoc.
    destruct (onSetLocalWindowSize o); split; reflexivity.
Qed.

Lemma window_observer_mirrors_ticks_witness :
  let w := exec (setupAutoWindowSize steep) (new_session 0 (Some 65536%Q)) in
  exists sizes,
    applied_sizes (trace (default w (run steep two_growths w)))
    = applied_sizes (trace w) ++ sizes
    /\ reported_sizes (trace (default w (run steep two_growths w)))
       = reported_sizes (trace w) ++ List.filter valid_windowSize sizes.
Proof.
  cbv zeta.
  apply (window_observer_mirrors_ticks steep two_growths
           (exec (setupAutoWindowSize steep)
                 (new_session 0 (Some 65536%Q)))).
  - intros H. discriminate H.
  - vm_compute. reflexivity.
Defined.

(** In that run the first size is taken and reported, the second is
    beyond 2^31 - 1 and is not. *)
Example two_growths_applied :
  (fun w => (applied_sizes (trace w), reported_sizes (trace w)))
    <$> run steep two_growths
          (exec (setupAutoWindowSize steep) (new_session 0 (Some 65536%Q)))
  = Some ([2500000; 10240000000]%Q, [2500000]%Q).
Proof. vm_compute. reflexivity. Qed.

(** ** The two intervals *)

Lemma cleared_rest (c : option Timeout) (w : World) :
  nextTimeout (cleared c w) = nextTimeout w
  /\ session_closed (cleared c w) = session_closed w.
Proof. destruct c; split; reflexivity. Qed.

Lemma cleared_lookup_keep (c : option Timeout) (w : World) (t : Timeout)
    (x : Interval) :
  timers w !! t = Some x -> c <> Some t ->
  timers (cleared c w) !! t = Some x.
Proof.
  intros Hl Hc. destruct c as [h|]; cbn [cleared]; [|exact Hl].
  cbn [timers with_timers]. rewrite lookup_delete_ne; [exact Hl|congruence].
Qed.

Lemma rearmed_more (f d : Q) (w : World) :
  sessionPing_timer (rearmed f d w) = Some (nextTimeout w)
  /\ nextTimeout (rearmed f d w) = S (nextTimeout w)
  /\ session_closed (rearmed f d w) = session_closed w
  /\ timers (rearmed f d w)
     = <[nextTimeout w := mkInterval Ping (d * f)%Q]>
         (timers (cleared (sessionPing_timer w) w)).
Proof.
  unfold rearmed. destruct (sessionPing_timer w); repeat split; reflexivity.
Qed.

Lemma ticking_fields (interval : Q) (w : World) :
  autoWindowSize_timer (ticking interval w) = Some (nextTimeout w)
  /\ nextTimeout (ticking interval w) = S (nextTimeout w)
  /\ sessionPing_timer (ticking interval w) = sessionPing_timer w
  /\ session_destroyed (ticking interval w) = session_destroyed w
  /\ timers (ticking interval w)
     = <[nextTimeout w := mkInterval BandwidthCalculation interval]>
         (timers w).
Proof. repeat split; reflexivity. Qed.

(** The world setup hands to [update]: no ping interval held yet, and
    the intervals and the next [Timeout] as setup found them. *)
Lemma installed_unfold (o : AutoWindowSizeOptions) (w : World) :
  exists w3,
    installed o w
    = ticking (or_default BANDWIDTH_CALCULATION_INTERVAL_DEFAULT
                          (bandwidthCalculationInterval o))
        (rearmed (pingIntervalFactor_of o)
           (or_default INITIAL_PING_DURATION_REFERENCE_DEFAULT
                       (initialPingDurationReference o)) w3)
    /\ sessionPing_timer w3 = None
    /\ nextTimeout w3 = nextTimeout w
    /\ timers w3 = timers w
    /\ session_destroyed w3 = session_destroyed w.
Proof.
  unfold installed. cbv zeta.
  set (w2 := with_sessionPing_timer None _).
  exists (if session_destroyed w2 then w2 else pinged w2).
  split; [reflexivity|].
  assert (Hd : session_destroyed w2 = session_destroyed w).
  { subst w2. destruct (initialWindowSize o); reflexivity. }
  rewrite Hd.
  destruct (session_destroyed w);
    (split; [|split; [|split; [|exact Hd]]]);
    unfold w2; destruct (initialWindowSize o); reflexivity.
Qed.

(** Where an interval that is active after an event comes from: it has
    just been armed by the answer to a ping, or it was active before and
    the event did not clear it. *)
Lemma after_lookup_inv (o : AutoWindowSizeOptions) (e : Event) (w : World)
    (t : Timeout) (i : Interval) :
  timers (after o e w) !! t = Some i ->
  (exists d,
      e = PingCompletes (PingDuration d)
      /\ t = nextTimeout w
      /\ i = mkInterval Ping (d * pingIntervalFactor_of o)%Q)
  \/ (timers w !! t = Some i
      /\ ((exists d, e = PingCompletes (PingDuration d))
          \/ e = SessionCloses ->
          sessionPing_timer w <> Some t)
      /\ (e = SessionCloses -> autoWindowSize_timer w <> Some t)).
Proof.
  assert (Hsame : forall e',
    (forall d, e' <> PingCompletes (PingDuration d)) ->
    e' <> SessionCloses ->
    timers w !! t = Some i ->
    timers w !! t = Some i
    /\ ((exists d, e' = PingCompletes (PingDuration d))
        \/ e' = SessionCloses ->
        sessionPing_timer w <> Some t)
    /\ (e' = SessionCloses -> autoWindowSize_timer w <> Some t)).
  { intros e' Hp Hc Hl. split; [exact Hl|]. split.
    - intros [[d Hd]|Hd]; [exfalso; exact (Hp d Hd)|contradiction].
    - intros Hd. contradiction. }
  destruct e as [t'|[|d]|[buffer|]| | |now|o']; cbn [after];
    try (intros H; right; apply Hsame; [discriminate|discriminate|exact H]).
  - destruct (interval_callback <$> timers w !! t') as [[|]|].
    + rewrite tick_exec. intros H. right.
      apply Hsame; [discriminate|discriminate|exact H].
    + destruct (session_destroyed w).
      * intros H. apply cleared_lookup in H. right.
        apply Hsame; [discriminate|discriminate|apply H].
      * intros H. right.
        apply Hsame; [discriminate|discriminate|exact H].
    + intros H. right. apply Hsame; [discriminate|discriminate|exact H].
  - destruct (rearmed_more (pingIntervalFactor_of o) d
                (sampled o d (answered w))) as (_ & _ & _ & Ht).
    rewrite Ht. intros H. apply lookup_insert_Some in H.
    destruct H as [[<- <-]|[_ H]].
    + left. exists d. repeat split.
    + right. apply cleared_lookup in H. destruct H as [H Hne].
      split; [exact H|]. split; [intros _; exact Hne|discriminate].
  - cbv zeta.
    set (w1 := with_session_closed true w).
    set (w2 := cleared (sessionPing_timer w1) w1).
    intros H. apply cleared_lookup in H. destruct H as [H Ha].
    apply cleared_lookup in H. destruct H as [H Hp].
    right. split; [exact H|]. split; [intros _; exact Hp|].
    intros _.
    assert (Haw : autoWindowSize_timer w2 = autoWindowSize_timer w).
    { apply (cleared_fields (sessionPing_timer w1) w1). }
    rewrite <- Haw. exact Ha.
Qed.

(** What an event does to the two [timer] variables and to the supply of
    [Timeout]s. *)
Lemma after_held (o : AutoWindowSizeOptions) (e : Event) (w : World) :
  autoWindowSize_timer (after o e w) = autoWindowSize_timer w
  /\ match e with
     | PingCompletes (PingDuration d) =>
         sessionPing_timer (after o e w) = Some (nextTimeout w)
         /\ nextTimeout (after o e w) = S (nextTimeout w)
     | _ =>
         sessionPing_timer (after o e w) = sessionPing_timer w
         /\ nextTimeout (after o e w) = nextTimeout w
     end.
Proof.
  destruct e as [t|[|d]|[buffer|]| | |now|o']; cbn [after];
    try (repeat split; reflexivity).
  - destruct (interval_callback <$> timers w !! t) as [[|]|];
      [rewrite tick_exec; repeat split; reflexivity| |repeat split;
       reflexivity].
    destruct (session_destroyed w); [|repeat split; reflexivity].
    destruct (cleared_fields (sessionPing_timer w) w)
      as (_ & _ & _ & Ha & Hp).
    destruct (cleared_rest (sessionPing_timer w) w) as [Hn _].
    repeat split; assumption.
  - destruct (rearmed_fields (pingIntervalFactor_of o) d
                (sampled o d (answered w))) as (_ & _ & _ & Ha).
    destruct (rearmed_more (pingIntervalFactor_of o) d
                (sampled o d (answered w))) as (Hp & Hn & _).
    repeat split; assumption.
  - cbv zeta.
    set (w1 := with_session_closed true w).
    set (w2 := cleared (sessionPing_timer w1) w1).
    destruct (cleared_fields (autoWindowSize_timer w2) w2)
      as (_ & _ & _ & Ha & Hp).
    destruct (cleared_rest (autoWindowSize_timer w2) w2) as [Hn _].
    destruct (cleared_fields (sessionPing_timer w1) w1)
      as (_ & _ & _ & Ha' & Hp').
    destruct (cleared_rest (sessionPing_timer w1) w1) as [Hn' _].
    fold w2 in Ha', Hp', Hn'.
    rewrite Ha, Hp, Hn, Ha', Hp', Hn'. repeat split; reflexivity.
Qed.

Lemma after_closed (o : AutoWindowSizeOptions) (e : Event) (w : World) :
  match e with
  | SessionCloses => session_closed (after o e w) = true
  | _ => session_closed (after o e w) = session_closed w
  end.
Proof.
  destruct e as [t|[|d]|[buffer|]| | |now|o']; cbn [after];
    try reflexivity.
  - destruct (interval_callback <$> timers w !! t) as [[|]|];
      [rewrite tick_exec; reflexivity| |reflexivity].
    destruct (session_destroyed w); [|reflexivity].
    apply (cleared_rest (sessionPing_timer w) w).
  - apply (rearmed_more (pingIntervalFactor_of o) d
             (sampled o d (answered w))).
  - cbv zeta.
    set (w1 := with_session_closed true w).
    set (w2 := cleared (sessionPing_timer w1) w1).
    destruct (cleared_rest (autoWindowSize_timer w2) w2) as [_ Hc].
    destruct (cleared_rest (sessionPing_timer w1) w1) as [_ Hc'].
    fold w2 in Hc'. rewrite Hc, Hc'. reflexivity.
Qed.

(** An active interval that an event neither clears nor replaces. *)
Lemma after_lookup_keep (o : AutoWindowSizeOptions) (e : Event) (w : World)
    (t : Timeout) (x : Interval) :
  timers w !! t = Some x ->
  sessionPing_timer w <> Some t ->
  t <> nextTimeout w ->
  e <> SessionCloses ->
  timers (after o e w) !! t = Some x.
Proof.
  intros Hl Hp Hn He.
  destruct e as [t'|[|d]|[buffer|]| | |now|o']; cbn [after];
    try exact Hl; try contradiction.
  - destruct (interval_callback <$> timers w !! t') as [[|]|];
      [rewrite tick_exec; exact Hl| |exact Hl].
    destruct (session_destroyed w); [|exact Hl].
    apply cleared_lookup_keep; assumption.
  - destruct (rearmed_more (pingIntervalFactor_of o) d
                (sampled o d (answered w))) as (_ & _ & _ & Ht).
    rewrite Ht. rewrite lookup_insert_ne.
    + apply cleared_lookup_keep; assumption.
    + intros H. apply Hn. symmetry. exact H.
Qed.

Lemma installed_tick_kept (o : AutoWindowSizeOptions) (w : World) :
  tick_interval_kept o (installed o w).
Proof.
  destruct (installed_unfold o w) as (w3 & -> & _).
  set (w4 := rearmed _ _ w3).
  destruct (ticking_fields
              (or_default BANDWIDTH_CALCULATION_INTERVAL_DEFAULT
                          (bandwidthCalculationInterval o)) w4)
    as (Ha & Hn & Hp & _ & Ht).
  destruct (rearmed_more (pingIntervalFactor_of o)
              (or_default INITIAL_PING_DURATION_REFERENCE_DEFAULT
                          (initialPingDurationReference o)) w3)
    as (Hp4 & Hn4 & _).
  fold w4 in Hp4, Hn4.
  exists (nextTimeout w4). split; [exact Ha|].
  split; [rewrite Hn; lia|].
  split; [rewrite Hp, Hp4, Hn4; intros [= H]; lia|].
  intros _. rewrite Ht. apply lookup_insert_eq.
Qed.

Lemma step_tick_kept (o : AutoWindowSizeOptions) (e : Event) (w w' : World) :
  tick_interval_kept o w -> step o e w = Some w' -> tick_interval_kept o w'.
Proof.
  intros (a & Ha & Hlt & Hp & Hact) Hs.
  apply step_cases in Hs. destruct Hs as [_ ->].
  destruct (after_held o e w) as [Ha' Hheld].
  pose proof (after_closed o e w) as Hc.
  exists a. split; [rewrite Ha'; exact Ha|].
  assert (Hcases :
    (nextTimeout w <= nextTimeout (after o e w))%nat
    /\ sessionPing_timer (after o e w) <> Some a).
  { destruct e as [t|[|d]|data| | |now|o']; destruct Hheld as [Hp' Hn'];
      rewrite Hp', Hn'; try (split; [lia|exact Hp]).
    split; [lia|]. intros [= H]. lia. }
  destruct Hcases as [Hle Hp'].
  split; [lia|]. split; [exact Hp'|].
  intros Hopen.
  destruct e as [t|[|d]|data| | |now|o'];
    try (apply after_lookup_keep;
         [apply Hact; rewrite <- Hc; exact Hopen|exact Hp|lia|discriminate]).
  rewrite Hc in Hopen. discriminate.
Qed.

Lemma run_tick_kept (o : AutoWindowSizeOptions) (es : list Event)
    (w w' : World) :
  tick_interval_kept o w -> run o es w = Some w' -> tick_interval_kept o w'.
Proof.
  revert w. induction es as [|e es IH]; intros w Hw; cbn [run].
  - intros [= <-]. exact Hw.
  - destruct (step o e w) as [w1|] eqn:Hs; [|discriminate].
    apply IH. exact (step_tick_kept o e w w1 Hw Hs).
Qed.

(** X11: from setup until ['close'] is emitted, the interval that runs
    the tick stays active with the delay bandwidthCalculationInterval
    (200 by default): neither the pings nor their answers, nor the
    destruction of the session, clear or replace it. *)
Theorem tick_interval_active_until_close
    (o : AutoWindowSizeOptions) (w00 w0 : World) (es : list Event)
    (w : World) :
  setupAutoWindowSize o w00 = (Normal tt, w0) ->
  run o es w0 = Some w ->
  session_closed w = false ->
  exists a,
    autoWindowSize_timer w = Some a
    /\ timers w !! a
       = Some (mkInterval BandwidthCalculation
                 (or_default BANDWIDTH_CALCULATION_INTERVAL_DEFAULT
                             (bandwidthCalculationInterval o))).
Proof.
  intros Hsetup Hrun Hopen. apply setup_normal in Hsetup. subst w0.
  destruct (run_tick_kept o es _ w (installed_tick_kept o w00) Hrun)
    as (a & Ha & _ & _ & Hact).
  exists a. split; [exact Ha|exact (Hact Hopen)].
Qed.

Lemma tick_interval_active_until_close_witness :
  exists a,
    autoWindowSize_timer after_three_pings = Some a
    /\ timers after_three_pings !! a
       = Some (mkInterval BandwidthCalculation
                 (or_default BANDWIDTH_CALCULATION_INTERVAL_DEFAULT
                             (bandwidthCalculationInterval observed))).
Proof.
  apply (tick_interval_active_until_close observed
           (new_session 0 (Some 65536%Q)) (observed_session 65536)
           three_pings).
  - vm_compute. reflexivity.
  - vm_compute. reflexivity.
  - vm_compute. reflexivity.
Defined.

Lemma after_timers_alive (o : AutoWindowSizeOptions) (e : Event) (w : World) :
  session_destroyed w = false ->
  (forall d, e <> PingCompletes (PingDuration d)) ->
  e <> SessionCloses ->
  timers (after o e w) = timers w.
Proof.
  intros Hd Hp Hc.
  destruct e as [t|[|d]|[buffer|]| | |now|o']; cbn [after];
    try reflexivity; try contradiction.
  - destruct (interval_callback <$> timers w !! t) as [[|]|];
      [rewrite tick_exec; reflexivity| |reflexivity].
    rewrite Hd. reflexivity.
  - exfalso. exact (Hp d eq_refl).
Qed.

Lemma after_alive (o : AutoWindowSizeOptions) (e : Event) (w : World) :
  session_destroyed (after o e w) = false -> session_destroyed w = false.
Proof.
  intros H. destruct (session_destroyed w) eqn:Hd; [|reflexivity].
  rewrite (after_destroyed o e w Hd) in H. discriminate.
Qed.

Lemma installed_ping_kept (o : AutoWindowSizeOptions) (w : World) :
  ping_interval_kept o (installed o w).
Proof.
  pose proof (installed_recentRTT o w) as Hr.
  destruct (installed_unfold o w) as (w3 & Hi & _).
  rewrite Hi in *. clear Hi.
  set (r := or_default INITIAL_PING_DURATION_REFERENCE_DEFAULT
                       (initialPingDurationReference o)) in *.
  set (w4 := rearmed (pingIntervalFactor_of o) r w3) in *.
  destruct (ticking_fields
              (or_default BANDWIDTH_CALCULATION_INTERVAL_DEFAULT
                          (bandwidthCalculationInterval o)) w4)
    as (_ & _ & Hp & _ & Ht).
  destruct (rearmed_more (pingIntervalFactor_of o) r w3)
    as (Hp4 & Hn4 & _ & Ht4).
  fold w4 in Hp4, Hn4, Ht4.
  assert (Hl : timers (ticking
                 (or_default BANDWIDTH_CALCULATION_INTERVAL_DEFAULT
                             (bandwidthCalculationInterval o)) w4)
               !! nextTimeout w3
               = Some (mkInterval Ping (r * pingIntervalFactor_of o)%Q)).
  { rewrite Ht, lookup_insert_ne by (rewrite Hn4; lia).
    rewrite Ht4. apply lookup_insert_eq. }
  exists (nextTimeout w3). split; [rewrite Hp; exact Hp4|].
  rewrite Hr, Hl. split.
  - intros i [= <-]. reflexivity.
  - intros _. eexists. reflexivity.
Qed.

Lemma step_ping_kept (o : AutoWindowSizeOptions) (e : Event) (w w' : World) :
  ping_interval_kept o w -> step o e w = Some w' -> ping_interval_kept o w'.
Proof.
  intros (p & Hp & Hcad & Hact) Hs.
  apply step_cases in Hs. destruct Hs as [Hen ->].
  destruct (after_held o e w) as [_ Hheld].
  pose proof (after_rtt o e w) as Hrtt.
  assert (Hd : forall d,
    e = PingCompletes (PingDuration d) ->
    ping_interval_kept o (after o e w)).
  { intros d ->. destruct Hheld as [Hp' _]. destruct Hrtt as [Hr' _].
    assert (Hl : timers (after o (PingCompletes (PingDuration d)) w)
                 !! nextTimeout w
                 = Some (mkInterval Ping (d * pingIntervalFactor_of o)%Q)).
    { cbn [after].
      destruct (rearmed_more (pingIntervalFactor_of o) d
                  (sampled o d (answered w))) as (_ & _ & _ & Ht).
      rewrite Ht. apply lookup_insert_eq. }
    exists (nextTimeout w). split; [exact Hp'|].
    rewrite Hr', Hl. split.
    - intros i [= <-]. reflexivity.
    - intros _. eexists. reflexivity. }
  assert (Hother :
    (forall d, e <> PingCompletes (PingDuration d)) ->
    sessionPing_timer (after o e w) = sessionPing_timer w
    /\ recentRTT (after o e w) = recentRTT w).
  { intros Hne.
    destruct e as [t|[|d]|data| | |now|o'];
      try (split; [apply Hheld|apply Hrtt]).
    exfalso. exact (Hne d eq_refl). }
  destruct e as [t|[|d]|data| | |now|o'];
    try (apply (Hd d); reflexivity);
    (destruct Hother as [Hp' Hr']; [discriminate|];
     exists p; split; [rewrite Hp'; exact Hp|]; rewrite Hr'; split;
     [intros i Hl; apply after_lookup_inv in Hl;
      destruct Hl as [(d' & Hd' & _)|(Hl & _)];
      [discriminate|exact (Hcad i Hl)]|]).
  all: intros Halive; pose proof (after_alive _ _ _ Halive) as Hw.
  all: try (rewrite after_timers_alive;
            [exact (Hact Hw)|exact Hw|discriminate|discriminate]).
  cbn [enabled] in Hen. rewrite Hw in Hen. discriminate.
Qed.

Lemma run_ping_kept (o : AutoWindowSizeOptions) (es : list Event)
    (w w' : World) :
  ping_interval_kept o w -> run o es w = Some w' -> ping_interval_kept o w'.
Proof.
  revert w. induction es as [|e es IH]; intros w Hw; cbn [run].
  - intros [= <-]. exact Hw.
  - destruct (step o e w) as [w1|] eqn:Hs; [|discriminate].
    apply IH. exact (step_ping_kept o e w w1 Hw Hs).
Qed.

(** X12: from setup on, as long as the session is not destroyed, the
    interval held in [timer] is active and runs [ping], and its delay is
    pingIntervalFactor times the duration of the latest ping that
    completed without error, or times initialPingDurationReference
    before the first one. *)
Theorem ping_interval_follows_latest_duration
    (o : AutoWindowSizeOptions) (w00 w0 : World) (es : list Event)
    (w : World) :
  setupAutoWindowSize o w00 = (Normal tt, w0) ->
  run o es w0 = Some w ->
  session_destroyed w = false ->
  exists p,
    sessionPing_timer w = Some p
    /\ timers w !! p
       = Some (mkInterval Ping
                 (cadence_reference o (ping_durations es)
                  * pingIntervalFactor_of o)%Q).
Proof.
  intros Hsetup Hrun Halive. apply setup_normal in Hsetup. subst w0.
  destruct (run_ping_kept o es _ w (installed_ping_kept o w00) Hrun)
    as (p & Hp & Hcad & Hact).
  destruct (run_rtt _ _ _ _ Hrun) as [_ Hr].
  rewrite installed_recentRTT in Hr.
  exists p. split; [exact Hp|].
  destruct (Hact Halive) as [i Hi]. rewrite Hi. f_equal.
  rewrite (Hcad i Hi), Hr. unfold cadence_reference.
  destruct (ping_durations es) as [|d ds]; [reflexivity|].
  rewrite latest_last by discriminate. reflexivity.
Qed.

Lemma ping_interval_follows_latest_duration_witness :
  exists p,
    sessionPing_timer after_three_pings = Some p
    /\ timers after_three_pings !! p
       = Some (mkInterval Ping
                 (cadence_reference observed (ping_durations three_pings)
                  * pingIntervalFactor_of observed)%Q).
Proof.
  apply (ping_interval_follows_latest_duration observed
           (new_session 0 (Some 65536%Q)) (observed_session 65536)
           three_pings).
  - vm_compute. reflexivity.
  - vm_compute. reflexivity.
  - vm_compute. reflexivity.
Defined.

Example cadence_after_three_pings :
  interval_delay
    <$> (timers after_three_pings !! 4%nat) = Some (60 * 50)%Q.
Proof. vm_compute. reflexivity. Qed.

Lemma installed_held (o : AutoWindowSizeOptions) (w : World) :
  timers w = ∅ -> intervals_held (installed o w).
Proof.
  intros Hempty t i.
  destruct (installed_unfold o w) as (w3 & -> & Hp3 & _ & Ht3 & _).
  set (r := or_default INITIAL_PING_DURATION_REFERENCE_DEFAULT
                       (initialPingDurationReference o)).
  set (w4 := rearmed (pingIntervalFactor_of o) r w3).
  destruct (ticking_fields
              (or_default BANDWIDTH_CALCULATION_INTERVAL_DEFAULT
                          (bandwidthCalculationInterval o)) w4)
    as (Ha & _ & Hp & _ & Ht).
  destruct (rearmed_more (pingIntervalFactor_of o) r w3)
    as (Hp4 & _ & _ & Ht4).
  fold w4 in Hp4, Ht4.
  rewrite Ha, Hp, Hp4, Ht, Ht4, Hp3. cbn [cleared]. rewrite Ht3, Hempty.
  intros H. apply lookup_insert_Some in H.
  destruct H as [[<- _]|[_ H]]; [right; reflexivity|].
  apply lookup_insert_Some in H.
  destruct H as [[<- _]|[_ H]]; [left; reflexivity|].
  rewrite lookup_empty in H. discriminate.
Qed.

Lemma after_intervals_held (o : AutoWindowSizeOptions) (e : Event)
    (w : World) :
  intervals_held w -> intervals_held (after o e w).
Proof.
  intros Hw t i Hl.
  destruct (after_held o e w) as [Ha Hheld].
  apply after_lookup_inv in Hl.
  destruct Hl as [(d & -> & -> & _)|(Hl & Hp & _)].
  - left. apply Hheld.
  - rewrite Ha. destruct (Hw t i Hl) as [Hpt|Hat]; [|right; exact Hat].
    left.
    destruct e as [t'|[|d]|data| | |now|o'];
      try (destruct Hheld as [-> _]; exact Hpt).
    exfalso. apply Hp; [left; exists d; reflexivity|exact Hpt].
Qed.

Lemma run_intervals_held (o : AutoWindowSizeOptions) (es : list Event)
    (w w' : World) :
  intervals_held w -> run o es w = Some w' -> intervals_held w'.
Proof.
  revert w. induction es as [|e es IH]; intros w Hw; cbn [run].
  - intros [= <-]. exact Hw.
  - destruct (step o e w) as [w1|] eqn:Hs; [|discriminate].
    apply step_cases in Hs. destruct Hs as [_ ->].
    apply IH. apply after_intervals_held. exact Hw.
Qed.

(** X13: set up where no interval was active, the controller never has an
    interval active that it does not hold in one of its two [timer]
    variables: [update] clears the interval it replaces, so at most one
    interval runs [ping] and at most one runs the tick. *)
Theorem no_interval_leaks
    (o : AutoWindowSizeOptions) (w00 w0 : World) (es : list Event)
    (w : World) :
  timers w00 = ∅ ->
  setupAutoWindowSize o w00 = (Normal tt, w0) ->
  run o es w0 = Some w ->
  forall t i,
    timers w !! t = Some i ->
    sessionPing_timer w = Some t \/ autoWindowSize_timer w = Some t.
Proof.
  intros Hempty Hsetup Hrun. apply setup_normal in Hsetup. subst w0.
  exact (run_intervals_held o es _ w (installed_held o w00 Hempty) Hrun).
Qed.

Lemma no_interval_leaks_witness :
  sessionPing_timer after_three_pings = Some 4%nat
  \/ autoWindowSize_timer after_three_pings = Some 4%nat.
Proof.
  apply (no_interval_leaks observed (new_session 0 (Some 65536%Q))
           (observed_session 65536) three_pings after_three_pings
           eq_refl) with (i := mkInterval Ping 3000).
  - vm_compute. reflexivity.
  - vm_compute. reflexivity.
  - vm_compute. reflexivity.
Defined.

(** X14: when ['close'] is emitted on a session set up where no interval
    was active, the two listeners leave no interval active at all. *)
Theorem close_clears_every_interval
    (o : AutoWindowSizeOptions) (w00 w0 : World) (es : list Event)
    (w1 w2 : World) :
  timers w00 = ∅ ->
  setupAutoWindowSize o w00 = (Normal tt, w0) ->
  run o es w0 = Some w1 ->
  step o SessionCloses w1 = Some w2 ->
  timers w2 = ∅.
Proof.
  intros Hempty Hsetup Hrun Hclose. apply setup_normal in Hsetup. subst w0.
  pose proof (run_intervals_held o es _ w1 (installed_held o w00 Hempty) Hrun)
    as Hheld.
  apply step_cases in Hclose. destruct Hclose as [_ ->].
  apply map_empty. intros t.
  destruct (timers (after o SessionCloses w1) !! t) as [i|] eqn:Hl;
    [|reflexivity].
  exfalso. apply after_lookup_inv in Hl.
  destruct Hl as [(d & Hd & _)|(Hl & Hp & Ha)]; [discriminate|].
  destruct (Hheld t i Hl) as [H|H].
  - apply Hp; [right; reflexivity|exact H].
  - apply Ha; [reflexivity|exact H].
Qed.

Lemma close_clears_every_interval_witness :
  timers (default after_three_pings
            (run observed [SessionDestroyed; SessionCloses]
               after_three_pings))
  = ∅.
Proof.
  apply (close_clears_every_interval observed
           (new_session 0 (Some 65536%Q)) (observed_session 65536)
           (three_pings ++ [SessionDestroyed])
           (default after_three_pings
              (run observed [SessionDestroyed] after_three_pings))).
  - reflexivity.
  - vm_compute. reflexivity.
  - vm_compute. reflexivity.
  - vm_compute. reflexivity.
Defined.

(** ** Setup on a destroyed session *)

(** X15: on a session that is already destroyed, a setup given an
    initialWindowSize that passes the assertion throws what
    setLocalWindowSize throws there, and arms nothing.  Given none, setup
    returns without a call, no ping included, yet arms the ping interval
    like any other; the first time that interval fires, [ping] sends
    nothing and clears it. *)
Theorem setup_on_destroyed_session
    (o : AutoWindowSizeOptions) (w00 : World) :
  session_destroyed w00 = true ->
  (forall i,
      initialWindowSize o = Some i ->
      (minWindowSize_of o <= i)%Q ->
      setupAutoWindowSize o w00
      = (Throw ERR_HTTP2_INVALID_SESSION,
         with_trace (trace w00 ++ [SetLocalWindowSize i]) w00))
  /\ (initialWindowSize o = None ->
      exists w0,
        setupAutoWindowSize o w00 = (Normal tt, w0)
        /\ trace w0 = trace w00
        /\ sessionPing_timer w0 = Some (nextTimeout w00)
        /\ exists w1,
             step o (TimerFires (nextTimeout w00)) w0 = Some w1
             /\ trace w1 = trace w0
             /\ timers w1 !! nextTimeout w00 = None).
Proof.
  intros Hd. split.
  { intros i Hi Hle. apply Qle_bool_iff in Hle.
    rewrite setupAutoWindowSize_cases, Hi, Hle. unfold refusal.
    rewrite Hd. reflexivity. }
  intros Hnone. exists (installed o w00).
  split; [rewrite setupAutoWindowSize_cases, Hnone; reflexivity|].
  pose proof (installed_trace o w00) as Htr. rewrite Hd, Hnone in Htr.
  rewrite !app_nil_r in Htr.
  destruct (installed_ping_kept o w00) as (p & Hp & Hcad & _).
  destruct (installed_unfold o w00) as (w3 & Hi & _ & Hn3 & _ & Hd3).
  assert (Hp0 : sessionPing_timer (installed o w00)
                = Some (nextTimeout w00)).
  { rewrite Hi.
    destruct (ticking_fields
                (or_default BANDWIDTH_CALCULATION_INTERVAL_DEFAULT
                            (bandwidthCalculationInterval o))
                (rearmed (pingIntervalFactor_of o)
                   (or_default INITIAL_PING_DURATION_REFERENCE_DEFAULT
                               (initialPingDurationReference o)) w3))
      as (_ & _ & Hpt & _).
    rewrite Hpt.
    rewrite (proj1 (rearmed_more _ _ w3)), Hn3. reflexivity. }
  assert (Hdi : session_destroyed (installed o w00) = true).
  { rewrite Hi.
    destruct (ticking_fields
                (or_default BANDWIDTH_CALCULATION_INTERVAL_DEFAULT
                            (bandwidthCalculationInterval o))
                (rearmed (pingIntervalFactor_of o)
                   (or_default INITIAL_PING_DURATION_REFERENCE_DEFAULT
                               (initialPingDurationReference o)) w3))
      as (_ & _ & _ & Hdt & _).
    rewrite Hdt.
    destruct (rearmed_fields (pingIntervalFactor_of o)
                (or_default INITIAL_PING_DURATION_REFERENCE_DEFAULT
                            (initialPingDurationReference o)) w3)
      as (_ & _ & Hdr & _).
    rewrite Hdr, Hd3. exact Hd. }
  assert (Hl : is_Some (timers (installed o w00) !! nextTimeout w00)).
  { pose proof (installed_recentRTT o w00) as Hr.
    rewrite Hi in *.
    set (r := or_default INITIAL_PING_DURATION_REFERENCE_DEFAULT
                         (initialPingDurationReference o)) in *.
    set (w4 := rearmed (pingIntervalFactor_of o) r w3) in *.
    destruct (ticking_fields
                (or_default BANDWIDTH_CALCULATION_INTERVAL_DEFAULT
                            (bandwidthCalculationInterval o)) w4)
      as (_ & _ & _ & _ & Ht).
    destruct (rearmed_more (pingIntervalFactor_of o) r w3)
      as (_ & Hn4 & _ & Ht4).
    fold w4 in Hn4, Ht4.
    rewrite Ht, lookup_insert_ne by (rewrite Hn4, Hn3; lia).
    rewrite Ht4, Hn3. eexists. apply lookup_insert_eq. }
  split; [exact Htr|].
  split; [exact Hp0|].
  rewrite Hp in Hp0. injection Hp0 as ->.
  destruct Hl as [i Hl]. pose proof (Hcad i Hl) as Hic.
  exists (after o (TimerFires (nextTimeout w00)) (installed o w00)).
  split.
  { unfold step. cbn [enabled]. rewrite Hl.
    rewrite bool_decide_eq_true_2 by (eexists; reflexivity).
    rewrite handler_exec. reflexivity. }
  cbn [after]. rewrite Hl, Hic.
  cbn [fmap option_fmap option_map interval_callback].
  rewrite Hdi, Hp.
  split; [apply cleared_trace|apply lookup_delete_eq].
Qed.

Lemma setup_on_destroyed_session_witness :
  exists w0,
    setupAutoWindowSize observed destroyed_session = (Normal tt, w0)
    /\ trace w0 = trace destroyed_session
    /\ sessionPing_timer w0 = Some (nextTimeout destroyed_session)
    /\ exists w1,
         step observed (TimerFires (nextTimeout destroyed_session)) w0
         = Some w1
         /\ trace w1 = trace w0
         /\ timers w1 !! nextTimeout destroyed_session = None.
Proof.
  refine (proj2 (setup_on_destroyed_session observed destroyed_session _)
            _).
  - reflexivity.
  - reflexivity.
Defined.

(** ** From one tick to the next *)

Lemma run_app (o : AutoWindowSizeOptions) (es es' : list Event)
    (w : World) :
  run o (es ++ es') w =
  match run o es w with
  | Some w' => run o es' w'
  | None => None
  end.
Proof.
  revert w. induction es as [|e es IH]; intros w; cbn [app run];
    [reflexivity|].
  destruct (step o e w); [apply IH|reflexivity].
Qed.

(** X16: a tick decides on what happened since the tick before it: when
    only pushes and the clock have moved since, the byte counter it will
    read is the sum of the lengths of the buffers pushed in between, the
    duration it will compute is the clock's advance since that tick, and
    the samples and the session are as that tick left them. *)
Theorem tick_measures_since_last_tick
    (o : AutoWindowSizeOptions) (w : World)
    (datas : list (option (list byte))) (now : Z) (w3 : World) :
  run o (map StreamPush datas ++ [ClockShows now])
        (exec (bandwidthCalculation o) w) = Some w3 ->
  receivedSinceLastBandwidthCalculation w3 = total_length datas
  /\ Date_now w3 - bandwidthCalculatedAt w3 = now - Date_now w
  /\ minRTT w3 = minRTT w
  /\ recentRTT w3 = recentRTT w
  /\ session_effectiveLocalWindowSize w3
     = session_effectiveLocalWindowSize w
  /\ session_destroyed w3 = session_destroyed w.
Proof.
  intros Hrun.
  rewrite run_app, pushes_add_lengths_run in Hrun.
  cbn [run] in Hrun. unfold step in Hrun. cbn [enabled] in Hrun.
  rewrite handler_exec in Hrun.
  cbn [after] in Hrun. injection Hrun as <-.
  rewrite !tick_exec.
  cbn [Date_now bandwidthCalculatedAt session_effectiveLocalWindowSize
       minRTT recentRTT receivedSinceLastBandwidthCalculation
       session_destroyed
       with_Date_now with_receivedSinceLastBandwidthCalculation with_trace
       tick_reset with_bandwidthCalculatedAt].
  repeat split.
Qed.

Lemma tick_measures_since_last_tick_witness :
  let w := midflight 0 65536 50 in
  let w3 :=
    default w
      (run observed (map StreamPush between_ticks ++ [ClockShows 1400])
           (exec (bandwidthCalculation observed) w)) in
  receivedSinceLastBandwidthCalculation w3 = total_length between_ticks
  /\ Date_now w3 - bandwidthCalculatedAt w3 = 1400 - Date_now w
  /\ minRTT w3 = minRTT w
  /\ recentRTT w3 = recentRTT w
  /\ session_effectiveLocalWindowSize w3
     = session_effectiveLocalWindowSize w
  /\ session_destroyed w3 = session_destroyed w.
Proof.
  cbv zeta.
  apply (tick_measures_since_last_tick observed (midflight 0 65536 50)
           between_ticks 1400).
  vm_compute. reflexivity.
Defined.

(** The tick that follows divides 200000 bytes by 200 ms. *)
Example tick_after_between_ticks :
  let w := midflight 0 65536 50 in
  (fun w3 => trace (exec (bandwidthCalculation observed) w3))
    <$> run observed (map StreamPush between_ticks ++ [ClockShows 1400])
          (exec (bandwidthCalculation observed) w)
  = Some [SetLocalWindowSize 100000; OnSetLocalWindowSize 100000].
Proof. vm_compute. reflexivity. Qed.

(** * After the close event *)

Lemma step_terminated (o : AutoWindowSizeOptions) (e : Event) (w w' : World) :
  terminated w ->
  step o e w = Some w' ->
  terminated w'
  /\ trace w' = trace w
  /\ recentRTT w' = recentRTT w
  /\ minRTT w' = minRTT w
  /\ sessionPing_timer w' = sessionPing_timer w
  /\ (forall t i, timers w' !! t = Some i -> timers w !! t = Some i).
Proof.
  intros Hw Hs. apply step_cases in Hs. destruct Hs as [Hen ->].
  destruct (after_terminated o e w Hw) as [Hw' _].
  destruct Hw as [Hd Hno].
  assert (Hne : forall d, e <> PingCompletes (PingDuration d)).
  { intros d ->. cbn [enabled] in Hen. rewrite Hd in Hen.
    rewrite andb_false_r in Hen. discriminate. }
  split; [exact Hw'|].
  split.
  { rewrite after_trace.
    destruct e as [t|[|d]|data| | |now|o']; cbn [emits];
      try apply app_nil_r.
    - destruct (timers w !! t) as [i|] eqn:Hl; cbn; [|apply app_nil_r].
      rewrite (Hno t i Hl), Hd. apply app_nil_r.
    - exfalso. exact (Hne d eq_refl). }
  pose proof (after_rtt o e w) as Hrtt.
  destruct (after_held o e w) as [_ Hheld].
  assert (Hsame :
    recentRTT (after o e w) = recentRTT w
    /\ minRTT (after o e w) = minRTT w
    /\ sessionPing_timer (after o e w) = sessionPing_timer w).
  { destruct e as [t|[|d]|data| | |now|o'];
      try (split; [apply Hrtt|split; [apply Hrtt|apply Hheld]]).
    exfalso. exact (Hne d eq_refl). }
  destruct Hsame as (Hr & Hm & Hp).
  split; [exact Hr|]. split; [exact Hm|]. split; [exact Hp|].
  intros t i Hl. apply after_lookup_inv in Hl.
  destruct Hl as [(d & Hd' & _)|(Hl & _)]; [|exact Hl].
  exfalso. exact (Hne d Hd').
Qed.

Lemma run_terminated_silent (o : AutoWindowSizeOptions) (es : list Event)
    (w w' : World) :
  terminated w ->
  run o es w = Some w' ->
  trace w' = trace w
  /\ recentRTT w' = recentRTT w
  /\ minRTT w' = minRTT w
  /\ sessionPing_timer w' = sessionPing_timer w
  /\ (forall t i, timers w' !! t = Some i -> timers w !! t = Some i).
Proof.
  revert w. induction es as [|e es IH]; intros w Hw; cbn [run].
  - intros [= <-]. repeat split. intros t i H. exact H.
  - destruct (step o e w) as [w1|] eqn:Hs; [|discriminate].
    destruct (step_terminated o e w w1 Hw Hs)
      as (Hw1 & Ht & Hr & Hm & Hp & Hl).
    intros Hrun. destruct (IH _ Hw1 Hrun) as (Ht' & Hr' & Hm' & Hp' & Hl').
    rewrite Ht', Hr', Hm', Hp', Ht, Hr, Hm, Hp. repeat split.
    intros t i H. apply Hl. apply Hl'. exact H.
Qed.

(** C3: once ['close'] has been emitted, whatever happens next, the
    controller makes no call at all: no ping is sent and no window size
    set.  The callback of a ping that was outstanding, which a closed
    session answers with an error, is a no-op: recentRTT and minRTT stay
    as they were, the ping observer is not called, and no interval is
    armed. *)
Theorem closed_session_is_silent
    (o : AutoWindowSizeOptions) (w00 w0 : World) (es : list Event)
    (w1 w2 : World) (es' : list Event) (w3 : World) :
  no_tick_interval w00 ->
  setupAutoWindowSize o w00 = (Normal tt, w0) ->
  run o es w0 = Some w1 ->
  step o SessionCloses w1 = Some w2 ->
  run o es' w2 = Some w3 ->
  trace w3 = trace w2
  /\ recentRTT w3 = recentRTT w2
  /\ minRTT w3 = minRTT w2
  /\ sessionPing_timer w3 = sessionPing_timer w2
  /\ (forall t i, timers w3 !! t = Some i -> timers w2 !! t = Some i).
Proof.
  intros Hno Hsetup Hrun Hclose Hrun'.
  apply setup_normal in Hsetup. subst w0.
  pose proof (installed_tracked o w00 Hno) as Ht0.
  pose proof (run_tracked _ _ _ _ Ht0 Hrun) as Ht1.
  pose proof (close_terminated _ _ _ Ht1 Hclose) as Ht2.
  exact (run_terminated_silent o es' w2 w3 Ht2 Hrun').
Qed.

Lemma closed_session_is_silent_witness :
  trace (default closed_early (run observed aftermath closed_early))
  = trace closed_early.
Proof.
  refine (proj1 (closed_session_is_silent observed
                   (new_session 0 (Some 65536%Q))
                   (observed_session 65536)
                   [SessionDestroyed]
                   (default closed_early
                      (run observed [SessionDestroyed]
                         (observed_session 65536)))
                   closed_early aftermath
                   (default closed_early
                      (run observed aftermath closed_early))
                   _ _ _ _ _)).
  - intros t i H. vm_compute in H. discriminate.
  - vm_compute. reflexivity.
  - vm_compute. reflexivity.
  - vm_compute. reflexivity.
  - vm_compute. reflexivity.
Defined.

(** A ping cannot report a duration once the session is destroyed: in
    this very state the event is not enabled. *)
Example no_duration_after_close :
  step observed (PingCompletes (PingDuration 40)) closed_early = None
  /\ is_Some (step observed (PingCompletes PingError) closed_early).
Proof. split; [vm_compute; reflexivity|vm_compute; eexists; reflexivity]. Qed.
